(** * rteval report parser: the PostgreSQL layer (server/parser/pgsql.c)

    A shallow embedding of [pgsql_INSERT], [db_update_submissionqueue],
    [db_get_submissionqueue_job], [db_register_system] and
    [db_register_rtevalrun].

    The C functions talk to the database through libpq and keep no state of
    their own, so the embedding threads one [world] through every call: the
    state of the connection and the trace of the libpq and mutex calls made
    so far, each with the answer it got.  The database itself is a parameter
    (class [libpq]); [Module Ref] gives one concrete store with tables, used
    to run the functions on examples.

    Memory-unsafe steps of the C code (a store past the end of [value_ar],
    [strcat] of a NULL field name) end a run with [Undefined]. *)

From Stdlib Require Import ZArith String Ascii List Bool Lia.
From stdpp Require Import base list strings pretty.
Import ListNotations.

Set Default Proof Using "Type".
Open Scope Z_scope.

(** ** C library and libxml2 views *)

(** What a C function hands back: a value, or nothing defined at all. *)
Inductive outcome (A : Type) : Type :=
| Returns (a : A)
| Undefined.
Arguments Returns {A} a.
Arguments Undefined {A}.

Definition isdigit (c : ascii) : bool :=
  let n := nat_of_ascii c in ((48 <=? n) && (n <=? 57))%nat.

Definition isspace (c : ascii) : bool :=
  let n := nat_of_ascii c in ((n =? 32) || ((9 <=? n) && (n <=? 13)))%nat.

Fixpoint skip_space (s : string) : string :=
  match s with
  | String c r => if isspace c then skip_space r else s
  | EmptyString => s
  end.

Fixpoint digits_value (s : string) (acc : Z) : Z :=
  match s with
  | String c r =>
      if isdigit c
      then digits_value r (10 * acc + (Z.of_nat (nat_of_ascii c) - 48))
      else acc
  | EmptyString => acc
  end.

(** [atoi] of libc: blanks, a sign, digits.  The function gives the number
    the digits denote, which is what the C function returns when that number
    fits an [int] ([fits_int] below); the statements that turn on a number
    read from a document ask for that. *)
Definition atoi (s : string) : Z :=
  match skip_space s with
  | String "-"%char r => - digits_value r 0
  | String "+"%char r => digits_value r 0
  | r => digits_value r 0
  end.

(** Modelled from the spec: eurephia_nullsafe.h is not among the sources.
    Field ids and keys are integers read from text; by its name and its
    use, [atoi_nullsafe(str)] is [atoi(str)], and 0 for a NULL pointer. *)
Definition atoi_nullsafe (str : option string) : Z :=
  match str with
  | Some s => atoi s
  | None => 0
  end.

(** An [int] stored into an [unsigned int]. *)
Definition to_uint (z : Z) : Z := z mod 2 ^ 32.

(** The numbers an [int] holds. *)
Definition fits_int (z : Z) : bool := (- 2 ^ 31 <=? z) && (z <? 2 ^ 31).

(** [printf("%i")] of an integer. *)
Definition decimal (z : Z) : string := pretty z.

Inductive xmlElementType : Type :=
| XML_ELEMENT_NODE
| XML_TEXT_NODE
| XML_COMMENT_NODE.

Definition is_element (t : xmlElementType) : bool :=
  match t with
  | XML_ELEMENT_NODE => true
  | _ => false
  end.

(** The sqldata document, seen through the accessors [pgsql_INSERT] uses.
    A child of <record>: [val_fid] is [xmlGetAttrValue(properties, "fid")],
    [val_content] is what [sqldataExtractContent] returns for the node (the
    text, the serialised xmlblob or the SHA1 digest). *)
Record valueNode : Type := mkValue {
  val_type : xmlElementType;
  val_fid : option string;
  val_content : option string
}.

(** A child of <records>. *)
Record recordNode : Type := mkRecord {
  rec_type : xmlElementType;
  rec_children : list valueNode
}.

(** A child of <fields>: [fld_content] is [xmlExtractContent] of the node,
    the field name. *)
Record fieldNode : Type := mkField {
  fld_type : xmlElementType;
  fld_fid : option string;
  fld_content : option string
}.

(** The root element: [root_fields] and [root_records] are
    [xmlFindNode(root_n, "fields")] and [xmlFindNode(root_n, "records")],
    given by their children. *)
Record rootNode : Type := mkRoot {
  root_name : string;
  root_table : option string;
  root_key : option string;
  root_fields : option (list fieldNode);
  root_records : option (list recordNode)
}.

(** A (non-NULL) [xmlDoc *]; the document may have no root element. *)
Record xmlDoc : Type := mkDoc {
  xmlDocGetRootElement : option rootNode
}.

(** ** eurephiaVALUES *)

(** Modelled from the spec: eurephia_values.c is not among the sources.  The
    spec calls what [pgsql_INSERT] returns a list of per-record results, one
    entry per inserted record under a name, empty for no record: a value
    chain is the list of its (key, value) entries, [eCreate_value_space]
    makes the empty one, [eAdd_value] appends, [eCount] is the length. *)
Definition eurephiaVALUES : Type := list (string * option string).

Definition eCreate_value_space (evgid : Z) : eurephiaVALUES := [].

Definition eAdd_value (vls : eurephiaVALUES) (key : string) (val : option string)
  : eurephiaVALUES := (vls ++ [(key, val)])%list.

Definition eCount (vls : eurephiaVALUES) : nat := length vls.

(** [dbdata->val]: the value of the first entry. *)
Definition eurephia_val (vls : eurephiaVALUES) : option string :=
  match vls with
  | (_, v) :: _ => v
  | [] => None
  end.

(** ** Submission queue statuses *)

(** The STAT_* macros of pgsql.h.  Their numbers are not among the sources;
    [db_update_submissionqueue] only asks which macro its argument equals. *)
Inductive queue_status : Type :=
| STAT_NEW
| STAT_ASSIGNED
| STAT_INPROG
| STAT_SUCCESS
| STAT_UNKNFAIL
| STAT_XMLFAIL
| STAT_SYSREG
| STAT_GENDB
| STAT_RTEVRUNS
| STAT_CYCLIC.

(** The [int status] argument: one of the macros, or any other number. *)
Inductive status_arg : Type :=
| Stat (s : queue_status)
| StatOther (code : Z).

(** ** libpq *)

Inductive ExecStatusType : Type :=
| PGRES_EMPTY_QUERY
| PGRES_COMMAND_OK
| PGRES_TUPLES_OK
| PGRES_COPY_OUT
| PGRES_COPY_IN
| PGRES_BAD_RESPONSE
| PGRES_NONFATAL_ERROR
| PGRES_FATAL_ERROR.

Definition ExecStatusType_eqb (a b : ExecStatusType) : bool :=
  match a, b with
  | PGRES_EMPTY_QUERY, PGRES_EMPTY_QUERY
  | PGRES_COMMAND_OK, PGRES_COMMAND_OK
  | PGRES_TUPLES_OK, PGRES_TUPLES_OK
  | PGRES_COPY_OUT, PGRES_COPY_OUT
  | PGRES_COPY_IN, PGRES_COPY_IN
  | PGRES_BAD_RESPONSE, PGRES_BAD_RESPONSE
  | PGRES_NONFATAL_ERROR, PGRES_NONFATAL_ERROR
  | PGRES_FATAL_ERROR, PGRES_FATAL_ERROR => true
  | _, _ => false
  end.

(** A [PGresult]: its status, its rows of text values, and the OID of the
    inserted row (InvalidOid, 0, when there is none). *)
Record PGresult : Type := mkResult {
  res_status : ExecStatusType;
  res_tuples : list (list string);
  res_oid : Z
}.

(** The accessors take the pointer, which may be NULL. *)
Definition PQresultStatus (r : option PGresult) : ExecStatusType :=
  match r with
  | Some r => res_status r
  | None => PGRES_FATAL_ERROR
  end.

Definition PQntuples (r : option PGresult) : nat :=
  match r with
  | Some r => length (res_tuples r)
  | None => 0%nat
  end.

Definition PQgetvalue (r : option PGresult) (tup field : nat) : option string :=
  match r with
  | Some r =>
      match res_tuples r !! tup with
      | Some row => row !! field
      | None => None
      end
  | None => None
  end.

Definition PQoidValue (r : option PGresult) : Z :=
  match r with
  | Some r => res_oid r
  | None => 0
  end.

(** Which timestamp column an UPDATE of the queue sets to NOW(). *)
Inductive stamp : Type :=
| NoStamp
| ParseStart
| ParseEnd.

(** The statements the file sends with [PQexec], by the format string that
    builds each. *)
Inductive sql_command : Type :=
| SelectNewJob (status : queue_status)
    (* SELECT submid, filename FROM submissionqueue
        WHERE status = %i ORDER BY submid LIMIT 1 *)
| UpdateQueue (status : queue_status) (st : stamp) (submid : Z)
    (* UPDATE submissionqueue SET status = %i [, parsestart|parseend = NOW()]
        WHERE submid = %i *)
| SelectSystem (sysid : string)
    (* SELECT syskey FROM systems WHERE sysid = '%.256s' *)
| SelectHostname (hostname ipaddr : string).
    (* SELECT syskey FROM systems_hostname
        WHERE hostname='%.256s' AND ipaddr='%.64s' *)

(** The statement [pgsql_INSERT] prepares. *)
Record insert_stmt : Type := mkInsert {
  ins_table : string;
  ins_fields : list string;
  ins_key : option string
}.

Fixpoint join (sep : string) (l : list string) : string :=
  match l with
  | [] => ""
  | [s] => s
  | s :: r => s +:+ sep +:+ join sep r
  end.

(** The text of the prepared statement, as [pgsql_INSERT] puts it together:
    the field names, the place holders $1 .. $n
    ([snprintf(tmp, 6, "$%i", i+1)], so five characters at most; the
    [append_str] macro is taken to append all of them), and RETURNING for a
    key. *)
Definition insert_sql (q : insert_stmt) : string :=
  let fields := "(" +:+ join "," (ins_fields q) +:+ ")" in
  let values :=
    "(" +:+ join "," (map (λ i, substring 0 5 ("$" +:+ decimal (Z.of_nat (S i))))
                          (seq 0 (length (ins_fields q)))) +:+ ")" in
  "INSERT INTO " +:+ ins_table q +:+ " " +:+ fields +:+ " VALUES " +:+ values
  +:+ match ins_key q with
      | Some key => " RETURNING " +:+ key
      | None => ""
      end.

(** One call, with the answer it got. *)
Inductive event : Type :=
| EvPQexec (q : sql_command) (r : option PGresult)
| EvPQprepare (q : insert_stmt) (nParams : nat) (r : option PGresult)
| EvPQexecPrepared (nParams : nat) (paramValues : list (option string))
    (r : option PGresult)
| EvLock
| EvUnlock.

(** The database behind a connection: how its state answers each call. *)
Class libpq : Type := {
  PGconn : Type;
  pq_exec : PGconn → sql_command → PGconn * option PGresult;
  pq_prepare : PGconn → insert_stmt → nat → PGconn * option PGresult;
  pq_exec_prepared : PGconn → nat → list (option string) → PGconn * option PGresult
}.

(** The transformations of xmlparser.c, which is not among the sources:
    taken as they come. [sqldataGetHostInfo] also sets hostname and ipaddr. *)
Record parseParams : Type := mkParams {
  prm_table : string;
  prm_syskey : Z;
  prm_report_filename : option string;
  prm_rterid : Z
}.

Class xmlparser : Type := {
  xsltStylesheet : Type;
  summaryXML : Type;
  parseToSQLdata : xsltStylesheet → summaryXML → parseParams → option xmlDoc;
  sqldataGetValue : xmlDoc → string → nat → option string;
  sqldataGetHostInfo :
    xsltStylesheet → summaryXML → Z → option (xmlDoc * string * string)
}.

Inductive jobStatus : Type :=
| jbNONE
| jbAVAIL.

Record parseJob_t : Type := mkJob {
  job_status : jobStatus;
  job_submid : Z;
  job_filename : string
}.

(** ** The state every call runs in *)

Section Code.
Context {L : libpq} {X : xmlparser}.

Record world : Type := mkWorld {
  dbc : PGconn;
  trace : list event
}.

Definition M (A : Type) : Type := world → world * outcome A.

Definition ret {A : Type} (a : A) : M A := λ w, (w, Returns a).

Definition undefined {A : Type} : M A := λ w, (w, Undefined).

Definition bind {A B : Type} (c : M A) (k : A → M B) : M B :=
  λ w, match c w with
       | (w', Returns a) => k a w'
       | (w', Undefined) => (w', Undefined)
       end.

Notation "'let!' x ':=' c 'in' k" := (bind c (λ x, k))
  (at level 10, x name, c at level 200, k at level 200, only parsing).

Definition log (e : event) (w : world) : world :=
  mkWorld (dbc w) (trace w ++ [e]).

Definition PQexec (q : sql_command) : M (option PGresult) :=
  λ w, let '(c, r) := pq_exec (dbc w) q in
       (mkWorld c (trace w ++ [EvPQexec q r]), Returns r).

Definition PQprepare (q : insert_stmt) (nParams : nat) : M (option PGresult) :=
  λ w, let '(c, r) := pq_prepare (dbc w) q nParams in
       (mkWorld c (trace w ++ [EvPQprepare q nParams r]), Returns r).

Definition PQexecPrepared (nParams : nat) (paramValues : list (option string))
  : M (option PGresult) :=
  λ w, let '(c, r) := pq_exec_prepared (dbc w) nParams paramValues in
       (mkWorld c (trace w ++ [EvPQexecPrepared nParams paramValues r]), Returns r).

Definition pthread_mutex_lock : M unit := λ w, (log EvLock w, Returns tt).

Definition pthread_mutex_unlock : M unit := λ w, (log EvUnlock w, Returns tt).

(** ** pgsql_INSERT *)

(** The field names put into the statement: [strcat(fields, field_ar[i])]
    for every i below fieldcnt, which needs each name to be there. *)
Fixpoint field_names (field_ar : list (option string)) : outcome (list string) :=
  match field_ar with
  | [] => Returns []
  | Some name :: rest =>
      match field_names rest with
      | Returns names => Returns (name :: names)
      | Undefined => Undefined
      end
  | None :: _ => Undefined
  end.

(** The loop over the <value> nodes of one record.  [i] counts the values
    taken so far; the i-th one is stored at [value_ar[field_idx[i]]].
    [field_idx] has fieldcnt+1 entries, [value_ar] has fieldcnt. *)
Fixpoint fill_value_ar (field_idx : list Z) (fieldcnt : nat)
    (vals : list valueNode) (i : nat) (value_ar : list (option string))
  : outcome (list (option string)) :=
  match vals with
  | [] => Returns value_ar
  | val_n :: rest =>
      if (fieldcnt <? i)%nat then Returns value_ar
      else if negb (is_element (val_type val_n))
      then fill_value_ar field_idx fieldcnt rest i value_ar
      else
        let fid_s := val_fid val_n in
        let fid := atoi_nullsafe fid_s in
        match fid_s with
        | None => fill_value_ar field_idx fieldcnt rest i value_ar
        | Some _ =>
            if fid <? 0
            then fill_value_ar field_idx fieldcnt rest i value_ar
            else
              let idx := nth i field_idx 0 in
              if idx <? Z.of_nat fieldcnt
              then fill_value_ar field_idx fieldcnt rest (S i)
                     (<[Z.to_nat idx := val_content val_n]> value_ar)
              else Undefined
        end
  end.

(** [value_ar] of one record: calloc'ed, then filled. *)
Definition record_values (field_idx : list Z) (fieldcnt : nat) (ptr_n : recordNode)
  : outcome (list (option string)) :=
  fill_value_ar field_idx fieldcnt (rec_children ptr_n) 0
    (replicate fieldcnt None).

(** The status an execution must come back with. *)
Definition expected_status (key : option string) : ExecStatusType :=
  match key with
  | Some _ => PGRES_TUPLES_OK
  | None => PGRES_COMMAND_OK
  end.

(** The entry one successful execution adds to the result: the returned
    key under its name, or the OID of the row under "oid". *)
Definition result_entry (key : option string) (dbres : option PGresult)
  : string * option string :=
  match key with
  | Some key => (key, PQgetvalue dbres 0 0)
  | None => ("oid", Some (decimal (PQoidValue dbres)))
  end.

Definition add_result (key : option string) (dbres : option PGresult)
    (res : eurephiaVALUES) : eurephiaVALUES :=
  let (name, val) := result_entry key dbres in eAdd_value res name val.

(** The loop over the <record> nodes. *)
Fixpoint insert_records (key : option string) (field_idx : list Z)
    (fieldcnt : nat) (recs : list recordNode) (res : eurephiaVALUES)
  : M (option eurephiaVALUES) :=
  match recs with
  | [] => ret (Some res)
  | ptr_n :: rest =>
      if negb (is_element (rec_type ptr_n))
      then insert_records key field_idx fieldcnt rest res
      else
        match record_values field_idx fieldcnt ptr_n with
        | Undefined => undefined
        | Returns value_ar =>
            let! dbres := PQexecPrepared fieldcnt value_ar in
            if negb (ExecStatusType_eqb (PQresultStatus dbres) (expected_status key))
            then ret None
            else insert_records key field_idx fieldcnt rest (add_result key dbres res)
        end
  end.

(** The element children of <fields>, and the index mapping table made of
    their fid attributes; calloc leaves one more entry, 0, at its end. *)
Definition element_fields (fields_n : list fieldNode) : list fieldNode :=
  List.filter (λ n, is_element (fld_type n)) fields_n.

Definition field_index (elems : list fieldNode) : list Z :=
  (map (λ n, to_uint (atoi_nullsafe (fld_fid n))) elems ++ [0])%list.

Definition pgsql_INSERT (sqldoc : xmlDoc) : M (option eurephiaVALUES) :=
  match xmlDocGetRootElement sqldoc with
  | None => ret None
  | Some root_n =>
      if negb (String.eqb (root_name root_n) "sqldata") then ret None
      else
        match root_table root_n with
        | None => ret None
        | Some table =>
            let key := root_key root_n in
            match root_fields root_n, root_records root_n with
            | Some fields_n, Some recs_n =>
                let elems := element_fields fields_n in
                let fieldcnt := length elems in
                let field_idx := field_index elems in
                let field_ar := map fld_content elems in
                match field_names field_ar with
                | Undefined => undefined
                | Returns names =>
                    let! dbres := PQprepare (mkInsert table names key) fieldcnt in
                    if negb (ExecStatusType_eqb (PQresultStatus dbres) PGRES_COMMAND_OK)
                    then ret None
                    else insert_records key field_idx fieldcnt recs_n
                           (eCreate_value_space 1)
                end
            | _, _ => ret None
            end
        end
  end.

(** ** The submission queue *)

Definition status_stamp (s : queue_status) : option stamp :=
  match s with
  | STAT_ASSIGNED => Some NoStamp
  | STAT_INPROG => Some ParseStart
  | STAT_SUCCESS | STAT_UNKNFAIL | STAT_XMLFAIL | STAT_SYSREG
  | STAT_GENDB | STAT_RTEVRUNS | STAT_CYCLIC => Some ParseEnd
  | STAT_NEW => None
  end.

(** [submid] is the number that [%i] prints for the [unsigned int] argument:
    the argument itself as long as it is below 2^31. *)
Definition db_update_submissionqueue (submid : Z) (status : status_arg) : M Z :=
  match status with
  | Stat s =>
      match status_stamp s with
      | Some st =>
          let! res := PQexec (UpdateQueue s st submid) in
          match res with
          | None => ret (-1)
          | Some _ =>
              if negb (ExecStatusType_eqb (PQresultStatus res) PGRES_COMMAND_OK)
              then ret (-1)
              else ret 1
          end
      | None => ret 0
      end
  | StatOther _ => ret 0
  end.

(** [snprintf(job->filename, 4090, "%.4090s", s)]. *)
Definition job_filename_of (s : string) : string := substring 0 4089 s.

(** The job is allocated first; the embedding takes the allocation to
    succeed.  On the jbNONE path only the status member is assigned. *)
Definition db_get_submissionqueue_job : M (option parseJob_t) :=
  let! _ := pthread_mutex_lock in
  let! res := PQexec (SelectNewJob STAT_NEW) in
  if negb (ExecStatusType_eqb (PQresultStatus res) PGRES_TUPLES_OK)
  then
    let! _ := pthread_mutex_unlock in
    ret None
  else if (PQntuples res =? 1)%nat
  then
    let submid := atoi_nullsafe (PQgetvalue res 0 0) in
    match PQgetvalue res 0 1 with
    | None => undefined
    | Some fname =>
        let! rc := db_update_submissionqueue submid (Stat STAT_ASSIGNED) in
        if rc <? 1
        then
          let! _ := pthread_mutex_unlock in
          ret None
        else
          let! _ := pthread_mutex_unlock in
          ret (Some (mkJob jbAVAIL submid (job_filename_of fname)))
    end
  else
    let! _ := pthread_mutex_unlock in
    ret (Some (mkJob jbNONE 0 "")).

(** ** Registration of systems and runs *)

Definition db_register_system (xslt : xsltStylesheet) (summaryxml : summaryXML)
  : M Z :=
  match parseToSQLdata xslt summaryxml (mkParams "systems" 0 None 0) with
  | None => ret (-1)
  | Some sysinfo_d =>
      match sqldataGetValue sysinfo_d "sysid" 0 with
      | None => ret (-1)
      | Some sysid =>
          let! dbres := PQexec (SelectSystem (substring 0 256 sysid)) in
          if negb (ExecStatusType_eqb (PQresultStatus dbres) PGRES_TUPLES_OK)
          then ret (-1)
          else if (PQntuples dbres =? 0)%nat
          then
            (* No record found, need to register this system *)
            let! dbdata := pgsql_INSERT sysinfo_d in
            match dbdata with
            | None => ret (-1)
            | Some dbdata =>
                if negb (eCount dbdata =? 1)%nat
                   || negb (bool_decide (is_Some (eurephia_val dbdata)))
                then ret (-1)
                else
                  let syskey := atoi_nullsafe (eurephia_val dbdata) in
                  match sqldataGetHostInfo xslt summaryxml syskey with
                  | None => ret (-1)
                  | Some (hostinfo_d, hostname, ipaddr) =>
                      let! dbdata := pgsql_INSERT hostinfo_d in
                      ret (match dbdata with Some _ => syskey | None => -1 end)
                  end
            end
          else if (PQntuples dbres =? 1)%nat
          then
            (* System found - check if the host IP is known or not *)
            let syskey := atoi_nullsafe (PQgetvalue dbres 0 0) in
            match sqldataGetHostInfo xslt summaryxml syskey with
            | None => ret (-1)
            | Some (hostinfo_d, hostname, ipaddr) =>
                let! dbres :=
                  PQexec (SelectHostname (substring 0 256 hostname)
                                         (substring 0 64 ipaddr)) in
                if negb (ExecStatusType_eqb (PQresultStatus dbres) PGRES_TUPLES_OK)
                then ret (-1)
                else if (PQntuples dbres =? 0)%nat
                then
                  (* Not registered, then register it *)
                  let! dbdata := pgsql_INSERT hostinfo_d in
                  ret (match dbdata with Some _ => syskey | None => -1 end)
                else ret syskey
            end
          else
            (* system IDs should not be registered more than once *)
            ret (-1)
      end
  end.

Definition db_register_rtevalrun (xslt : xsltStylesheet) (summaryxml : summaryXML)
    (syskey : Z) (report_fname : option string) : M Z :=
  match parseToSQLdata xslt summaryxml (mkParams "rtevalruns" syskey report_fname 0) with
  | None => ret (-1)
  | Some rtevalrun_d =>
      let! dbdata := pgsql_INSERT rtevalrun_d in
      match dbdata with
      | None => ret (-1)
      | Some dbdata =>
          if negb (eCount dbdata =? 1)%nat then ret (-1)
          else
            let rterid := atoi_nullsafe (eurephia_val dbdata) in
            if rterid <? 1 then ret (-1)
            else
              match parseToSQLdata xslt summaryxml
                      (mkParams "rtevalruns_details" 0 None rterid) with
              | None => ret (-1)
              | Some rtevalrundets_d =>
                  let! dbdata := pgsql_INSERT rtevalrundets_d in
                  match dbdata with
                  | None => ret (-1)
                  | Some dbdata =>
                      if negb (eCount dbdata =? 1)%nat then ret (-1) else ret rterid
                  end
              end
      end
  end.

Definition db_register_cyclictest (xslt : xsltStylesheet) (summaryxml : summaryXML)
    (rterid : Z) : M Z :=
  match parseToSQLdata xslt summaryxml (mkParams "cyclic_statistics" 0 None rterid) with
  | None => ret (-1)
  | Some cyclic_d =>
      (* Register the cyclictest statistics information *)
      let! dbdata := pgsql_INSERT cyclic_d in
      match dbdata with
      | None => ret (-1)
      | Some dbdata =>
          if (eCount dbdata <? 1)%nat then ret (-1)
          else
            match parseToSQLdata xslt summaryxml
                    (mkParams "cyclic_rawdata" 0 None rterid) with
            | None => ret (-1)
            | Some cyclic_d =>
                (* Register the cyclictest raw data *)
                let! dbdata := pgsql_INSERT cyclic_d in
                match dbdata with
                | None => ret (-1)
                | Some dbdata =>
                    if (eCount dbdata <? 1)%nat then ret (-1) else ret 1
                end
            end
      end
  end.

(** ** Vocabulary of the statements *)

(** Executing the records [recs] one after the other from a world: every
    <record> got its values and its execution came back with the expected
    status.  [rs] are the results in record order. *)
Inductive runs_ok (key : option string) (field_idx : list Z) (fieldcnt : nat)
  : world → list recordNode → list (option PGresult) → world → Prop :=
| runs_nil w :
    runs_ok key field_idx fieldcnt w [] [] w
| runs_skip w ptr_n rest rs w' :
    is_element (rec_type ptr_n) = false →
    runs_ok key field_idx fieldcnt w rest rs w' →
    runs_ok key field_idx fieldcnt w (ptr_n :: rest) rs w'
| runs_exec w ptr_n rest value_ar w1 dbres rs w' :
    is_element (rec_type ptr_n) = true →
    record_values field_idx fieldcnt ptr_n = Returns value_ar →
    PQexecPrepared fieldcnt value_ar w = (w1, Returns dbres) →
    PQresultStatus dbres = expected_status key →
    runs_ok key field_idx fieldcnt w1 rest rs w' →
    runs_ok key field_idx fieldcnt w (ptr_n :: rest) (dbres :: rs) w'.

(** A document with a root <sqldata>, a table, <fields> and <records>. *)
Definition sqldata_doc (table : string) (key : option string)
    (fields_n : list fieldNode) (recs_n : list recordNode) : xmlDoc :=
  mkDoc (Some (mkRoot "sqldata" (Some table) key (Some fields_n) (Some recs_n))).

(** The parts of a document the statements speak about. *)
Definition doc_key (doc : xmlDoc) : option string :=
  match xmlDocGetRootElement doc with
  | Some root_n => root_key root_n
  | None => None
  end.

Definition doc_fields (doc : xmlDoc) : list fieldNode :=
  match xmlDocGetRootElement doc with
  | Some root_n => element_fields (default [] (root_fields root_n))
  | None => []
  end.

Definition doc_records (doc : xmlDoc) : list recordNode :=
  match xmlDocGetRootElement doc with
  | Some root_n =>
      List.filter (λ n, is_element (rec_type n)) (default [] (root_records root_n))
  | None => []
  end.

(** The executions in a trace: their parameters and their results. *)
Definition exec_params (t : list event) : list (list (option string)) :=
  omap (λ e, match e with EvPQexecPrepared _ p _ => Some p | _ => None end) t.

Definition exec_results (t : list event) : list (option PGresult) :=
  omap (λ e, match e with EvPQexecPrepared _ _ r => Some r | _ => None end) t.

(** The events a run added to the trace. *)
Definition since (w w' : world) : list event := drop (length (trace w)) (trace w').

(** Every database call of a trace happens between a lock and the unlock
    that follows it, and the lock is free at the end. *)
Fixpoint lock_held_at_calls (held : bool) (t : list event) : bool :=
  match t with
  | [] => negb held
  | EvLock :: t => negb held && lock_held_at_calls true t
  | EvUnlock :: t => held && lock_held_at_calls false t
  | _ :: t => held && lock_held_at_calls held t
  end.

(** An UPDATE came back, with PGRES_COMMAND_OK. *)
Definition update_ok (r : option PGresult) : bool :=
  match r with
  | Some x => ExecStatusType_eqb (res_status x) PGRES_COMMAND_OK
  | None => false
  end.

(** A <value> the loop of [fill_value_ar] takes: an element whose fid
    attribute is there and not negative. *)
Definition value_taken (val_n : valueNode) : bool :=
  match val_fid val_n with
  | Some fid_s => negb (atoi fid_s <? 0)
  | None => false
  end.

Definition drop_skipped_values (ptr_n : recordNode) : recordNode :=
  mkRecord (rec_type ptr_n)
    (List.filter (λ v, negb (is_element (val_type v)) || value_taken v)
                 (rec_children ptr_n)).

(** The document without the element values that have no fid or a negative
    one. *)
Definition without_skipped_values (doc : xmlDoc) : xmlDoc :=
  match xmlDocGetRootElement doc with
  | Some root_n =>
      mkDoc (Some (mkRoot (root_name root_n) (root_table root_n) (root_key root_n)
                     (root_fields root_n)
                     (option_map (map drop_skipped_values) (root_records root_n))))
  | None => doc
  end.

(** The contents of the values the loop of [fill_value_ar] takes, in the
    order they come. *)
Definition taken_contents (vals : list valueNode) : list (option string) :=
  map val_content
    (List.filter (λ v, is_element (val_type v) && value_taken v) vals).

(** Storing values at the given slots of an array, one after the other. *)
Definition store_values (slots : list Z) (cs : list (option string))
    (value_ar : list (option string)) : list (option string) :=
  foldl (λ ar p, <[Z.to_nat p.1 := p.2]> ar) value_ar (zip slots cs).

(** A document [pgsql_INSERT] accepts: the root is <sqldata>, with a table
    attribute, <fields> and <records>. *)
Definition is_sqldata (doc : xmlDoc) : bool :=
  match xmlDocGetRootElement doc with
  | Some root_n =>
      String.eqb (root_name root_n) "sqldata"
      && bool_decide (is_Some (root_table root_n))
      && bool_decide (is_Some (root_fields root_n))
      && bool_decide (is_Some (root_records root_n))
  | None => false
  end.

(** An execution of the prepared statement with [n] parameters. *)
Definition is_execution (n : nat) (e : event) : bool :=
  match e with
  | EvPQexecPrepared nParams paramValues _ =>
      (nParams =? n)%nat && (length paramValues =? n)%nat
  | _ => false
  end.

Definition is_prepare (e : event) : bool :=
  match e with
  | EvPQprepare _ _ _ => true
  | _ => false
  end.

(** A call an insert makes: PQprepare or PQexecPrepared. *)
Definition is_insert_event (e : event) : bool :=
  match e with
  | EvPQprepare _ _ _ | EvPQexecPrepared _ _ _ => true
  | _ => false
  end.

(** The fid attributes of fields and of values are numerals an [int]
    holds, so that [atoi] reads them as the C function does. *)
Definition fields_fit_int (fields_n : list fieldNode) : bool :=
  forallb (λ n, fits_int (atoi_nullsafe (fld_fid n))) fields_n.

Definition values_fit_int (vals : list valueNode) : bool :=
  forallb (λ v, fits_int (atoi_nullsafe (val_fid v))) vals.

Definition doc_fids_fit_int (doc : xmlDoc) : bool :=
  fields_fit_int (doc_fields doc)
  && forallb (λ ptr_n, values_fit_int (rec_children ptr_n)) (doc_records doc).

End Code.

Arguments db_update_submissionqueue : simpl never.
Arguments pgsql_INSERT : simpl never.

(** ** A reference store

    One database to run the functions against: tables of rows, a schema that
    says which tables and columns exist, every column NOT NULL, one sequence
    that feeds the key named by RETURNING, and the submission queue. *)

Module Ref.

Definition row : Type := list (string * option string).

Record queue_row : Type := mkQueueRow {
  q_submid : Z;
  q_filename : string;
  q_status : queue_status;
  q_parsestart : option Z;
  q_parseend : option Z
}.

Record store : Type := mkStore {
  schema : list (string * list string);
  rows : list (string * row);
  submissionqueue : list queue_row;
  prepared : option insert_stmt;
  serial : Z;
  clock : Z
}.

Definition queue_status_eqb (a b : queue_status) : bool :=
  match a, b with
  | STAT_NEW, STAT_NEW | STAT_ASSIGNED, STAT_ASSIGNED | STAT_INPROG, STAT_INPROG
  | STAT_SUCCESS, STAT_SUCCESS | STAT_UNKNFAIL, STAT_UNKNFAIL
  | STAT_XMLFAIL, STAT_XMLFAIL | STAT_SYSREG, STAT_SYSREG | STAT_GENDB, STAT_GENDB
  | STAT_RTEVRUNS, STAT_RTEVRUNS | STAT_CYCLIC, STAT_CYCLIC => true
  | _, _ => false
  end.

Definition col (r : row) (name : string) : option string :=
  match List.find (λ p, String.eqb (fst p) name) r with
  | Some (_, v) => v
  | None => None
  end.

Definition has (r : row) (name value : string) : bool :=
  match col r name with
  | Some v => String.eqb v value
  | None => false
  end.

Definition table_rows (table : string) (s : store) : list row :=
  map snd (List.filter (λ p, String.eqb (fst p) table) (rows s)).

Definition columns (table : string) (s : store) : option (list string) :=
  match List.find (λ p, String.eqb (fst p) table) (schema s) with
  | Some (_, cols) => Some cols
  | None => None
  end.

Definition mem (x : string) (l : list string) : bool :=
  List.existsb (String.eqb x) l.

Definition tuples_ok (t : list (list string)) : option PGresult :=
  Some (mkResult PGRES_TUPLES_OK t 0).

Definition command_ok : option PGresult := Some (mkResult PGRES_COMMAND_OK [] 0).

Definition fatal_error : option PGresult := Some (mkResult PGRES_FATAL_ERROR [] 0).

(** The row with the least submid among those in the given status. *)
Fixpoint first_job (status : queue_status) (q : list queue_row) : option queue_row :=
  match q with
  | [] => None
  | r :: rest =>
      let best := first_job status rest in
      if queue_status_eqb (q_status r) status
      then match best with
           | Some b => if q_submid b <? q_submid r then Some b else Some r
           | None => Some r
           end
      else best
  end.

Definition update_row (status : queue_status) (st : stamp) (submid now : Z)
    (r : queue_row) : queue_row :=
  if q_submid r =? submid
  then mkQueueRow (q_submid r) (q_filename r) status
         (match st with ParseStart => Some now | _ => q_parsestart r end)
         (match st with ParseEnd => Some now | _ => q_parseend r end)
  else r.

Definition syskeys (l : list row) : list (list string) :=
  map (λ r, [default "" (col r "syskey")]) l.

Definition exec (s : store) (q : sql_command) : store * option PGresult :=
  match q with
  | SelectNewJob status =>
      (s, tuples_ok match first_job status (submissionqueue s) with
                    | Some r => [[decimal (q_submid r); q_filename r]]
                    | None => []
                    end)
  | UpdateQueue status st submid =>
      (mkStore (schema s) (rows s)
         (map (update_row status st submid (clock s)) (submissionqueue s))
         (prepared s) (serial s) (clock s + 1),
       command_ok)
  | SelectSystem sysid =>
      (s, tuples_ok (syskeys (List.filter (λ r, has r "sysid" sysid)
                                          (table_rows "systems" s))))
  | SelectHostname hostname ipaddr =>
      (s, tuples_ok (syskeys (List.filter
                                (λ r, has r "hostname" hostname && has r "ipaddr" ipaddr)
                                (table_rows "systems_hostname" s))))
  end.

(** PREPARE is refused for a table or a column the schema does not have. *)
Definition prepare (s : store) (q : insert_stmt) (nParams : nat)
  : store * option PGresult :=
  match columns (ins_table q) s with
  | Some cols =>
      if List.forallb (λ f, mem f cols) (ins_fields q)
         && match ins_key q with Some k => mem k cols | None => true end
         && (length (ins_fields q) =? nParams)%nat
      then (mkStore (schema s) (rows s) (submissionqueue s) (Some q) (serial s) (clock s),
            command_ok)
      else (s, fatal_error)
  | None => (s, fatal_error)
  end.

(** The row an execution stores: the fields with their parameters, and the
    key column from the sequence unless the statement sets it. *)
Definition new_row (q : insert_stmt) (params : list (option string)) (next : Z) : row :=
  let given := combine (ins_fields q) params in
  match ins_key q with
  | Some k => if mem k (ins_fields q) then given else ((k, Some (decimal next)) :: given)%list
  | None => given
  end.

Definition exec_prepared (s : store) (nParams : nat) (params : list (option string))
  : store * option PGresult :=
  match prepared s with
  | Some q =>
      if (length params =? length (ins_fields q))%nat
         && List.forallb (λ p, bool_decide (is_Some p)) params
      then
        let r := new_row q params (serial s) in
        (mkStore (schema s) (rows s ++ [(ins_table q, r)])%list (submissionqueue s)
           (prepared s) (serial s + 1) (clock s),
         match ins_key q with
         | Some k => tuples_ok [[default "" (col r k)]]
         | None => command_ok
         end)
      else (s, fatal_error)
  | None => (s, fatal_error)
  end.

#[export] Instance pq : libpq := {|
  PGconn := store;
  pq_exec := exec;
  pq_prepare := prepare;
  pq_exec_prepared := exec_prepared
|}.

(** The schema of the rteval database, as far as the examples go. *)
Definition rteval_schema : list (string * list string) :=
  [("systems", ["syskey"; "sysid"]);
   ("systems_hostname", ["syskey"; "hostname"; "ipaddr"]);
   ("rtevalruns", ["rterid"; "syskey"; "report_filename"]);
   ("rtevalruns_details", ["rterid"; "xmldata"])].

Definition empty : store := mkStore rteval_schema [] [] None 1 0.

(** A stand-in for the XSLT transformation: a report is the few values the
    examples need, and each table gets a one-record sqldata document. *)
Record summary : Type := mkSummary {
  sum_sysid : string;
  sum_hostname : string;
  sum_ipaddr : string;
  sum_xmldata : string
}.

Definition field (fid : Z) (name : string) : fieldNode :=
  mkField XML_ELEMENT_NODE (Some (decimal fid)) (Some name).

Definition value (fid : Z) (content : string) : valueNode :=
  mkValue XML_ELEMENT_NODE (Some (decimal fid)) (Some content).

Definition record (vals : list valueNode) : recordNode :=
  mkRecord XML_ELEMENT_NODE vals.

Definition hostinfo (s : summary) (syskey : Z) : xmlDoc :=
  sqldata_doc "systems_hostname" None
    [field 0 "syskey"; field 1 "hostname"; field 2 "ipaddr"]
    [record [value 0 (decimal syskey); value 1 (sum_hostname s);
             value 2 (sum_ipaddr s)]].

Definition to_sqldata (_ : unit) (s : summary) (prms : parseParams) : option xmlDoc :=
  if String.eqb (prm_table prms) "systems"
  then Some (sqldata_doc "systems" (Some "syskey") [field 0 "sysid"]
               [record [value 0 (sum_sysid s)]])
  else if String.eqb (prm_table prms) "rtevalruns"
  then Some (sqldata_doc "rtevalruns" (Some "rterid")
               [field 0 "syskey"; field 1 "report_filename"]
               [record [value 0 (decimal (prm_syskey prms));
                        value 1 (default "" (prm_report_filename prms))]])
  else if String.eqb (prm_table prms) "rtevalruns_details"
  then Some (sqldata_doc "rtevalruns_details" None
               [field 0 "rterid"; field 1 "xmldata"]
               [record [value 0 (decimal (prm_rterid prms));
                        value 1 (sum_xmldata s)]])
  else None.

(** The value of the named field in the given record of a document. *)
Definition get_value (doc : xmlDoc) (name : string) (recid : nat) : option string :=
  match xmlDocGetRootElement doc with
  | Some root =>
      match List.find (λ f, bool_decide (fld_content f = Some name))
                      (default [] (root_fields root)),
            default [] (root_records root) !! recid with
      | Some f, Some r =>
          match List.find (λ v, bool_decide (val_fid v = fld_fid f)) (rec_children r) with
          | Some v => val_content v
          | None => None
          end
      | _, _ => None
      end
  | None => None
  end.

#[export] Instance parser : xmlparser := {|
  xsltStylesheet := unit;
  summaryXML := summary;
  parseToSQLdata := to_sqldata;
  sqldataGetValue := get_value;
  sqldataGetHostInfo := λ _ s syskey, Some (hostinfo s syskey, sum_hostname s, sum_ipaddr s)
|}.

(** A run from a store with nothing traced yet. *)
Definition start (s : store) : world := mkWorld s [].

(** *** Example data *)

Definition host_fields : list fieldNode :=
  [field 0 "syskey"; field 1 "hostname"; field 2 "ipaddr"].

(** One host record whose values come in another order than the fields. *)
Definition swapped_record : recordNode :=
  record [value 0 "1"; value 2 "10.0.0.1"; value 1 "node1"].

Definition swapped_doc : xmlDoc :=
  sqldata_doc "systems_hostname" None host_fields [swapped_record].

(** One host record with a value more, whose fid is -1. *)
Definition stray_doc : xmlDoc :=
  sqldata_doc "systems_hostname" None host_fields
    [record [value 0 "1"; value (-1) "junk"; value 1 "node1"; value 2 "10.0.0.1"]].

(** Three host records, with text nodes between them; the second one has
    no value for ipaddr. *)
Definition complete_host (syskey : Z) (hostname ipaddr : string) : recordNode :=
  record [value 0 (decimal syskey); value 1 hostname; value 2 ipaddr].

Definition incomplete_host : recordNode :=
  record [value 0 "2"; value 1 "node2"].

Definition blank : recordNode := mkRecord XML_TEXT_NODE [].

Definition three_hosts_doc : xmlDoc :=
  sqldata_doc "systems_hostname" None host_fields
    ([blank; complete_host 1 "node1" "10.0.0.1"; blank]
     ++ incomplete_host :: [blank; complete_host 3 "node3" "10.0.0.3"]).

(** Two systems, inserted with RETURNING syskey. *)
Definition two_systems_doc : xmlDoc :=
  sqldata_doc "systems" (Some "syskey") [field 0 "sysid"]
    [record [value 0 "abc"]; blank; record [value 0 "def"]].

(** The database after that: systems abc (syskey 1) and def (syskey 2). *)
Definition two_systems : store :=
  dbc (pgsql_INSERT two_systems_doc (start empty)).1.

(** Two systems, and node1 at 10.0.0.1 known as a host of the second. *)
Definition host_of_other_system : store :=
  dbc (pgsql_INSERT (sqldata_doc "systems_hostname" None host_fields
                       [complete_host 2 "node1" "10.0.0.1"])
         (start two_systems)).1.

Definition report_abc : summary := mkSummary "abc" "node1" "10.0.0.1" "<x/>".

(** A queue with two new jobs and one that is done. *)
Definition some_queue : store :=
  mkStore rteval_schema []
    [mkQueueRow 7 "seven.xml" STAT_NEW None None;
     mkQueueRow 3 "three.xml" STAT_NEW None None;
     mkQueueRow 1 "one.xml" STAT_SUCCESS (Some 0) (Some 1)]
    None 1 2.

(** *** More example data *)

(** A host record with five values for the three fields. *)
Definition crowded_record : recordNode :=
  record [value 0 "1"; value 1 "node1"; value 2 "10.0.0.1";
          value 3 "more"; value 4 "and more"].

(** A document whose fids count from 1. *)
Definition fids_from_one_doc : xmlDoc :=
  sqldata_doc "systems_hostname" None
    [field 1 "syskey"; field 2 "hostname"; field 3 "ipaddr"]
    [record [value 1 "1"; value 2 "node1"; value 3 "10.0.0.1"]].

(** The system abc registered twice, under the syskeys 1 and 2. *)
Definition duplicate_systems : store :=
  dbc (pgsql_INSERT (sqldata_doc "systems" (Some "syskey") [field 0 "sysid"]
                       [record [value 0 "abc"]; record [value 0 "abc"]])
         (start empty)).1.

(** A store with the two tables of cyclictest, and a stand-in for the
    transformation of a report, which here is the list of its statistics
    and the list of its raw data: one record for each. *)
Definition cyclic_store : store :=
  mkStore [("cyclic_statistics", ["rterid"; "statistics"]);
           ("cyclic_rawdata", ["rterid"; "rawdata"])]
    [] [] None 1 0.

Definition cyclic_doc (table column : string) (rterid : Z) (l : list string) : xmlDoc :=
  sqldata_doc table None [field 0 "rterid"; field 1 column]
    (map (λ v, record [value 0 (decimal rterid); value 1 v]) l).

Definition to_cyclic_sqldata (_ : unit) (s : list string * list string)
    (prms : parseParams) : option xmlDoc :=
  if String.eqb (prm_table prms) "cyclic_statistics"
  then Some (cyclic_doc "cyclic_statistics" "statistics" (prm_rterid prms) s.1)
  else if String.eqb (prm_table prms) "cyclic_rawdata"
  then Some (cyclic_doc "cyclic_rawdata" "rawdata" (prm_rterid prms) s.2)
  else None.

Definition cyclic_parser : xmlparser := {|
  xsltStylesheet := unit;
  summaryXML := list string * list string;
  parseToSQLdata := to_cyclic_sqldata;
  sqldataGetValue := get_value;
  sqldataGetHostInfo := λ _ _ _, None
|}.

(** The store in a database whose tables carry OIDs: an INSERT without
    RETURNING comes back with the OID of the new row, 16384 and the number
    the row takes from the sequence. *)
Definition exec_prepared_with_oids (s : store) (nParams : nat)
    (params : list (option string)) : store * option PGresult :=
  let (s', r) := exec_prepared s nParams params in
  (s', match r with
       | Some x =>
           if ExecStatusType_eqb (res_status x) PGRES_COMMAND_OK
           then Some (mkResult PGRES_COMMAND_OK [] (16384 + serial s))
           else r
       | None => None
       end).

Definition pq_with_oids : libpq := {|
  PGconn := store;
  pq_exec := exec;
  pq_prepare := prepare;
  pq_exec_prepared := exec_prepared_with_oids
|}.

(** A host document whose first value has a fid an [int] does not hold. *)
Definition wide_fid_doc : xmlDoc :=
  sqldata_doc "systems_hostname" None host_fields
    [mkRecord XML_ELEMENT_NODE
       [mkValue XML_ELEMENT_NODE (Some "2147483648") (Some "1");
        value 1 "node1"; value 2 "10.0.0.1"]].

End Ref.

(** * Properties *)

Lemma ExecStatusType_eqb_eq (a b : ExecStatusType) :
  ExecStatusType_eqb a b = true ↔ a = b.
Proof. destruct a, b; simpl; split; intros H; congruence. Qed.

Lemma ExecStatusType_eqb_neq (a b : ExecStatusType) :
  ExecStatusType_eqb a b = false ↔ a ≠ b.
Proof.
  rewrite <- ExecStatusType_eqb_eq.
  destruct (ExecStatusType_eqb a b); split; congruence.
Qed.

(** The statement of the example document of the interface. *)
Example insert_sql_systems :
  insert_sql (mkInsert "systems" ["sysid"; "hostname"] (Some "syskey"))
  = "INSERT INTO systems (sysid,hostname) VALUES ($1,$2) RETURNING syskey".
Proof. reflexivity. Qed.

Example atoi_examples :
  atoi "42" = 42 ∧ atoi " -7x" = -7 ∧ atoi "abc" = 0 ∧ atoi_nullsafe None = 0.
Proof. repeat split; reflexivity. Qed.

Section Queue.
Context {L : libpq}.

(** How an update to a status with a statement of its own runs. *)
Lemma db_update_submissionqueue_run (submid : Z) (s : queue_status) (st : stamp)
    (w : world) (c : PGconn) (r : option PGresult) :
  status_stamp s = Some st →
  pq_exec (dbc w) (UpdateQueue s st submid) = (c, r) →
  db_update_submissionqueue submid (Stat s) w =
    (mkWorld c (trace w ++ [EvPQexec (UpdateQueue s st submid) r]),
     Returns (if update_ok r then 1 else -1)).
Proof.
  intros Hst Hq. unfold db_update_submissionqueue, bind, PQexec.
  rewrite Hst, Hq. destruct r as [r|]; simpl; [|reflexivity].
  destruct (ExecStatusType_eqb (res_status r) PGRES_COMMAND_OK); reflexivity.
Qed.

Lemma db_update_submissionqueue_result (submid : Z) (status : status_arg)
    (w : world) :
  ∃ w' rc, db_update_submissionqueue submid status w = (w', Returns rc)
           ∧ (rc = 1 ∨ rc = 0 ∨ rc = -1).
Proof.
  destruct status as [s|z]; [|eexists _, _; split; [reflexivity|lia]].
  destruct (status_stamp s) as [st|] eqn:Hst.
  - destruct (pq_exec (dbc w) (UpdateQueue s st submid)) as [c r] eqn:Hq.
    rewrite (db_update_submissionqueue_run _ _ _ _ _ _ Hst Hq).
    eexists _, _; split; [reflexivity|]. destruct (update_ok r); lia.
  - unfold db_update_submissionqueue. rewrite Hst.
    eexists _, _; split; [reflexivity|lia].
Qed.

(** C7. Asking [db_update_submissionqueue] for the status STAT_NEW returns 0,
    the invalid-status result (not 1, not -1), whatever the submission id,
    the state of the database and so the current status of the job: no
    statement is sent, the connection and the trace of calls are as before. *)
Theorem update_to_new_is_invalid (submid : Z) (w : world) :
  db_update_submissionqueue submid (Stat STAT_NEW) w = (w, Returns 0)
  ∧ since w (fst (db_update_submissionqueue submid (Stat STAT_NEW) w)) = [].
Proof.
  split; [reflexivity|].
  unfold since; simpl. apply drop_all.
Qed.

(** C6. [db_get_submissionqueue_job], by the answer to its SELECT.  A failed
    SELECT gives NULL.  No row gives a job marked jbNONE, which is not NULL.
    One row: the job is marked STAT_ASSIGNED and returned if that update
    succeeds, and NULL is returned if it does not.  On every path the calls
    are lock, the SELECT, the UPDATE when a row was found, unlock: the mutex
    is held across all database calls and free at the end. *)
Theorem checkout_paths (w : world) (c1 : PGconn) (res : option PGresult) :
  pq_exec (dbc w) (SelectNewJob STAT_NEW) = (c1, res) →
  let sel := EvPQexec (SelectNewJob STAT_NEW) res in
  (PQresultStatus res ≠ PGRES_TUPLES_OK →
     db_get_submissionqueue_job w =
       (mkWorld c1 (trace w ++ [EvLock; sel; EvUnlock]), Returns None))
  ∧ (PQresultStatus res = PGRES_TUPLES_OK → PQntuples res ≠ 1%nat →
     db_get_submissionqueue_job w =
       (mkWorld c1 (trace w ++ [EvLock; sel; EvUnlock]),
        Returns (Some (mkJob jbNONE 0 ""))))
  ∧ (∀ (fname : string) (c2 : PGconn) (upd : option PGresult),
       PQresultStatus res = PGRES_TUPLES_OK → PQntuples res = 1%nat →
       PQgetvalue res 0 1 = Some fname →
       let submid := atoi_nullsafe (PQgetvalue res 0 0) in
       let mark := UpdateQueue STAT_ASSIGNED NoStamp submid in
       pq_exec c1 mark = (c2, upd) →
       let calls := [EvLock; sel; EvPQexec mark upd; EvUnlock] in
       lock_held_at_calls false calls = true
       ∧ db_get_submissionqueue_job w =
           (mkWorld c2 (trace w ++ calls),
            Returns (if update_ok upd
                     then Some (mkJob jbAVAIL submid (job_filename_of fname))
                     else None))).
Proof.
  intros Hsel sel.
  assert (Hstart : ∀ k : option PGresult → M (option parseJob_t),
    bind pthread_mutex_lock (λ _, bind (PQexec (SelectNewJob STAT_NEW)) k) w
    = k res (mkWorld c1 (trace w ++ [EvLock; sel]))).
  { intros k. unfold bind, pthread_mutex_lock, PQexec, log; simpl.
    rewrite Hsel. by rewrite <- app_assoc. }
  unfold db_get_submissionqueue_job. rewrite Hstart. clear Hstart.
  split; [|split].
  - intros Hbad. apply ExecStatusType_eqb_neq in Hbad. rewrite Hbad; simpl.
    unfold bind, pthread_mutex_unlock, log, ret; simpl. by rewrite <- app_assoc.
  - intros Hok Hn. apply ExecStatusType_eqb_eq in Hok. rewrite Hok; simpl.
    apply Nat.eqb_neq in Hn. rewrite Hn.
    unfold bind, pthread_mutex_unlock, log, ret; simpl. by rewrite <- app_assoc.
  - intros fname c2 upd Hok Hn Hname; cbv zeta; intros Hupd.
    split; [reflexivity|].
    apply ExecStatusType_eqb_eq in Hok. rewrite Hok; simpl.
    apply Nat.eqb_eq in Hn. rewrite Hn, Hname.
    unfold bind at 1.
    rewrite (db_update_submissionqueue_run _ STAT_ASSIGNED NoStamp
               (mkWorld c1 _) c2 upd eq_refl Hupd).
    simpl. destruct (update_ok upd); simpl;
      unfold bind, pthread_mutex_unlock, log, ret; simpl;
      by rewrite <- !app_assoc.
Qed.

End Queue.

Section Insert.
Context {L : libpq}.

Lemma PQprepare_run (q : insert_stmt) (n : nat) (w : world) :
  PQprepare q n w =
    (mkWorld (fst (pq_prepare (dbc w) q n))
       (trace w ++ [EvPQprepare q n (snd (pq_prepare (dbc w) q n))]),
     Returns (snd (pq_prepare (dbc w) q n))).
Proof. unfold PQprepare. by destruct (pq_prepare (dbc w) q n). Qed.

Lemma PQexecPrepared_run (n : nat) (p : list (option string)) (w : world) :
  PQexecPrepared n p w =
    (mkWorld (fst (pq_exec_prepared (dbc w) n p))
       (trace w ++ [EvPQexecPrepared n p (snd (pq_exec_prepared (dbc w) n p))]),
     Returns (snd (pq_exec_prepared (dbc w) n p))).
Proof. unfold PQexecPrepared. by destruct (pq_exec_prepared (dbc w) n p). Qed.

Lemma add_result_app (key : option string) (dbres : option PGresult)
    (res : eurephiaVALUES) :
  add_result key dbres res = (res ++ [result_entry key dbres])%list.
Proof. unfold add_result. by destruct (result_entry key dbres). Qed.

Lemma since_app (w w' : world) (evs : list event) :
  trace w' = (trace w ++ evs)%list → since w w' = evs.
Proof. unfold since. intros ->. by rewrite drop_app_length. Qed.

Lemma exec_results_app (t1 t2 : list event) :
  exec_results (t1 ++ t2) = (exec_results t1 ++ exec_results t2)%list.
Proof. apply omap_app. Qed.

Lemma exec_params_app (t1 t2 : list event) :
  exec_params (t1 ++ t2) = (exec_params t1 ++ exec_params t2)%list.
Proof. apply omap_app. Qed.

Section Loop.
Variables (key : option string) (field_idx : list Z) (fieldcnt : nat).

(** A prefix of records that all execute as expected is passed over by the
    loop, which goes on with the rest from where the prefix left it. *)
Lemma insert_records_ok (w : world) (pre : list recordNode)
    (rs : list (option PGresult)) (w1 : world) :
  runs_ok key field_idx fieldcnt w pre rs w1 →
  ∀ (rest : list recordNode) (res : eurephiaVALUES),
    insert_records key field_idx fieldcnt (pre ++ rest) res w =
    insert_records key field_idx fieldcnt rest
      (res ++ map (result_entry key) rs) w1.
Proof.
  induction 1 as [w|w ptr_n pre rs w' Hty _ IH
                  |w ptr_n pre value_ar w1 dbres rs w' Hty Hval Hexec Hst _ IH];
    intros rest res; simpl.
  - by rewrite app_nil_r.
  - rewrite Hty; simpl. apply IH.
  - rewrite Hty, Hval; simpl. unfold bind at 1. rewrite Hexec.
    apply ExecStatusType_eqb_eq in Hst. rewrite Hst; simpl.
    rewrite IH, add_result_app, <- app_assoc. reflexivity.
Qed.

(** The record whose execution does not come back as expected ends the
    loop: NULL, and the world is the one that execution left. *)
Lemma insert_records_stop (w w2 : world) (ptr_n : recordNode)
    (value_ar : list (option string)) (dbres : option PGresult)
    (rest : list recordNode) (res : eurephiaVALUES) :
  is_element (rec_type ptr_n) = true →
  record_values field_idx fieldcnt ptr_n = Returns value_ar →
  PQexecPrepared fieldcnt value_ar w = (w2, Returns dbres) →
  PQresultStatus dbres ≠ expected_status key →
  insert_records key field_idx fieldcnt (ptr_n :: rest) res w = (w2, Returns None).
Proof.
  intros Hty Hval Hexec Hst. simpl. rewrite Hty, Hval; simpl.
  unfold bind. rewrite Hexec.
  apply ExecStatusType_eqb_neq in Hst. by rewrite Hst.
Qed.

(** A loop that ends with a result has executed every record as expected. *)
Lemma insert_records_success (recs : list recordNode) :
  ∀ (res : eurephiaVALUES) (w w' : world) (out : eurephiaVALUES),
    insert_records key field_idx fieldcnt recs res w = (w', Returns (Some out)) →
    ∃ rs, runs_ok key field_idx fieldcnt w recs rs w'
          ∧ out = (res ++ map (result_entry key) rs)%list.
Proof.
  induction recs as [|ptr_n rest IH]; intros res w w' out; simpl.
  - unfold ret. intros [= <- <-]. exists []. split; [constructor|].
    by rewrite app_nil_r.
  - destruct (is_element (rec_type ptr_n)) eqn:Hty; simpl.
    + destruct (record_values field_idx fieldcnt ptr_n) as [value_ar|] eqn:Hval;
        [|discriminate].
      unfold bind at 1.
      destruct (PQexecPrepared fieldcnt value_ar w) as [w1 [dbres|]] eqn:Hexec;
        [|discriminate].
      destruct (ExecStatusType_eqb (PQresultStatus dbres) (expected_status key))
        eqn:Hst; simpl; [|discriminate].
      intros Hrun. apply IH in Hrun as (rs & Hrs & ->).
      exists (dbres :: rs). split.
      * eapply runs_exec; eauto. by apply ExecStatusType_eqb_eq.
      * rewrite add_result_app, <- app_assoc. reflexivity.
    + intros Hrun. apply IH in Hrun as (rs & Hrs & ->).
      exists rs. split; [by constructor|reflexivity].
Qed.

(** What a run of records leaves in the trace: one execution per <record>,
    in order, with the values of that record, and nothing else. *)
Lemma runs_ok_trace (w : world) (recs : list recordNode)
    (rs : list (option PGresult)) (w' : world) :
  runs_ok key field_idx fieldcnt w recs rs w' →
  ∃ evs, trace w' = (trace w ++ evs)%list
         ∧ exec_results evs = rs
         ∧ length evs = length rs
         ∧ length rs = length (List.filter (λ n, is_element (rec_type n)) recs)
         ∧ Forall2 (λ ptr_n value_ar,
                      record_values field_idx fieldcnt ptr_n = Returns value_ar)
             (List.filter (λ n, is_element (rec_type n)) recs) (exec_params evs).
Proof.
  induction 1 as [w|w ptr_n pre rs w' Hty _ IH
                  |w ptr_n pre value_ar w1 dbres rs w' Hty Hval Hexec Hst _ IH].
  - exists []. rewrite app_nil_r. repeat split; constructor.
  - destruct IH as (evs & Htr & Hres & Hlen & Hn & Hpar).
    exists evs. simpl. rewrite Hty. done.
  - destruct IH as (evs & Htr & Hres & Hlen & Hn & Hpar).
    rewrite PQexecPrepared_run in Hexec. injection Hexec as <- <-.
    exists (EvPQexecPrepared fieldcnt value_ar
              (snd (pq_exec_prepared (dbc w) fieldcnt value_ar)) :: evs).
    cbn [List.filter length trace] in *. rewrite Hty.
    split; [by rewrite Htr, <- app_assoc|]. split; [cbn; by f_equal|].
    split; [cbn; lia|]. split; [cbn; lia|].
    cbn. constructor; assumption.
Qed.

End Loop.
End Insert.

Section InsertProperties.
Context {L : libpq}.

(** [pgsql_INSERT] on such a document: prepare, then the loop. *)
Lemma pgsql_INSERT_run (table : string) (key : option string)
    (fields_n : list fieldNode) (recs_n : list recordNode) (names : list string)
    (w : world) :
  let elems := element_fields fields_n in
  field_names (map fld_content elems) = Returns names →
  pgsql_INSERT (sqldata_doc table key fields_n recs_n) w =
    let prep := PQprepare (mkInsert table names key) (length elems) w in
    match prep.2 with
    | Returns dbres =>
        if ExecStatusType_eqb (PQresultStatus dbres) PGRES_COMMAND_OK
        then insert_records key (field_index elems) (length elems) recs_n [] prep.1
        else (prep.1, Returns None)
    | Undefined => (prep.1, Undefined)
    end.
Proof.
  intros elems Hnames. unfold pgsql_INSERT, sqldata_doc; simpl.
  fold elems. rewrite Hnames. unfold bind.
  destruct (PQprepare _ _ w) as [w0 [dbres|]]; simpl; [|reflexivity].
  by destruct (ExecStatusType_eqb _ _).
Qed.

(** A call that returns a result had such a document, prepared its
    statement and ran the loop to its end. *)
Lemma pgsql_INSERT_success (doc : xmlDoc) (w w' : world) (res : eurephiaVALUES) :
  pgsql_INSERT doc w = (w', Returns (Some res)) →
  ∃ table fields_n recs_n names w0 dbres,
    doc = sqldata_doc table (doc_key doc) fields_n recs_n
    ∧ field_names (map fld_content (element_fields fields_n)) = Returns names
    ∧ PQprepare (mkInsert table names (doc_key doc))
        (length (element_fields fields_n)) w = (w0, Returns dbres)
    ∧ insert_records (doc_key doc) (field_index (element_fields fields_n))
        (length (element_fields fields_n)) recs_n [] w0 = (w', Returns (Some res)).
Proof.
  destruct doc as [[[name table key fields_n recs_n]|]]; unfold pgsql_INSERT; simpl;
    [|discriminate].
  destruct (String.eqb name "sqldata") eqn:Hname; simpl; [|discriminate].
  apply String.eqb_eq in Hname as ->.
  destruct table as [table|]; [|discriminate].
  destruct fields_n as [fields_n|]; [|discriminate].
  destruct recs_n as [recs_n|]; [|discriminate].
  destruct (field_names _) as [names|] eqn:Hnames; [|discriminate].
  unfold bind.
  destruct (PQprepare _ _ w) as [w0 [dbres|]] eqn:Hprep; [|discriminate].
  destruct (ExecStatusType_eqb _ _); simpl; [|discriminate].
  intros Hrun. by exists table, fields_n, recs_n, names, w0, dbres.
Qed.

(** C9. A document whose <records> has no <record> child: [pgsql_INSERT]
    still prepares the INSERT built from the table, the field names and the
    key, and that is the only call it makes.  It returns NULL if the
    preparation is refused and the empty result list otherwise. *)
Theorem insert_without_records (w : world) (table : string) (key : option string)
    (fields_n : list fieldNode) (recs_n : list recordNode) (names : list string) :
  Forall (λ n, is_element (rec_type n) = false) recs_n →
  field_names (map fld_content (element_fields fields_n)) = Returns names →
  let stmt := mkInsert table names key in
  let fieldcnt := length (element_fields fields_n) in
  let prep := pq_prepare (dbc w) stmt fieldcnt in
  pgsql_INSERT (sqldata_doc table key fields_n recs_n) w =
    (mkWorld prep.1 (trace w ++ [EvPQprepare stmt fieldcnt prep.2]),
     Returns (if ExecStatusType_eqb (PQresultStatus prep.2) PGRES_COMMAND_OK
              then Some [] else None)).
Proof.
  intros Hrecs Hnames stmt fieldcnt prep.
  rewrite (pgsql_INSERT_run _ _ _ _ _ _ Hnames); cbv zeta.
  rewrite PQprepare_run; simpl. fold stmt fieldcnt prep.
  destruct (ExecStatusType_eqb _ _); [|reflexivity].
  generalize (mkWorld prep.1 (trace w ++ [EvPQprepare stmt fieldcnt prep.2])).
  induction Hrecs as [|ptr_n rest Hty _ IH]; intros w0; simpl; [reflexivity|].
  rewrite Hty; simpl. apply IH.
Qed.

(** C3. The records before record k all execute with the expected status
    and the execution of record k does not: [pgsql_INSERT] returns NULL, no
    partial result, and the world it leaves is the one the execution of
    record k left.  The call made one PQprepare and one PQexecPrepared for
    each of the records up to k, and sent nothing after the failure: what
    the earlier executions inserted stays as the database has it. *)
Theorem insert_fails_fast (w w0 w1 w2 : world) (table : string)
    (key : option string) (fields_n : list fieldNode)
    (pre : list recordNode) (ptr_n : recordNode) (post : list recordNode)
    (names : list string) (rs : list (option PGresult))
    (value_ar : list (option string)) (dbres0 dbres : option PGresult) :
  let elems := element_fields fields_n in
  let fieldcnt := length elems in
  let field_idx := field_index elems in
  field_names (map fld_content elems) = Returns names →
  PQprepare (mkInsert table names key) fieldcnt w = (w0, Returns dbres0) →
  PQresultStatus dbres0 = PGRES_COMMAND_OK →
  runs_ok key field_idx fieldcnt w0 pre rs w1 →
  is_element (rec_type ptr_n) = true →
  record_values field_idx fieldcnt ptr_n = Returns value_ar →
  PQexecPrepared fieldcnt value_ar w1 = (w2, Returns dbres) →
  PQresultStatus dbres ≠ expected_status key →
  pgsql_INSERT (sqldata_doc table key fields_n (pre ++ ptr_n :: post)) w
    = (w2, Returns None)
  ∧ exec_results (since w w2) = (rs ++ [dbres])%list
  ∧ length (since w w2) = (2 + length rs)%nat.
Proof.
  intros elems fieldcnt field_idx Hnames Hprep Hst0 Hpre Hty Hval Hexec Hst.
  split.
  - rewrite (pgsql_INSERT_run _ _ _ _ _ _ Hnames); cbv zeta.
    fold elems fieldcnt field_idx. rewrite Hprep; simpl.
    apply ExecStatusType_eqb_eq in Hst0. rewrite Hst0.
    rewrite (insert_records_ok _ _ _ _ _ _ _ Hpre).
    by eapply insert_records_stop.
  - destruct (runs_ok_trace _ _ _ _ _ _ _ Hpre) as (evs & Htr & Hres & Hlen & _).
    rewrite PQprepare_run in Hprep. injection Hprep as <- <-.
    rewrite PQexecPrepared_run in Hexec. injection Hexec as <- <-.
    simpl in Htr.
    rewrite (since_app w _ (EvPQprepare (mkInsert table names key) fieldcnt
                              (pq_prepare (dbc w) (mkInsert table names key) fieldcnt).2
                            :: evs ++ [EvPQexecPrepared fieldcnt value_ar
                                 (pq_exec_prepared (dbc w1) fieldcnt value_ar).2])).
    + split.
      * change (exec_results (?e :: ?t)) with (exec_results t).
        rewrite exec_results_app, Hres. reflexivity.
      * simpl. rewrite length_app; simpl. lia.
    + simpl. rewrite Htr, <- !app_assoc. reflexivity.
Qed.

(** C5. A call of [pgsql_INSERT] that returns a result list returns one
    entry for each <record> of the document, in record order: there is one
    execution for each record, and entry i is made from the result of the
    i-th execution.  With a key, the entry is the first value of the first
    row of that result under the name of the key; without, it is the OID of
    that result in decimal under the name "oid", the text 0 when the result
    carries no OID.  Where the fid attributes of the document are numerals
    an [int] holds, the i-th execution ran with the values of the i-th
    record. *)
Theorem insert_results (doc : xmlDoc) (w w' : world) (res : eurephiaVALUES) :
  pgsql_INSERT doc w = (w', Returns (Some res)) →
  let rs := exec_results (since w w') in
  length res = length (doc_records doc)
  ∧ length rs = length (doc_records doc)
  ∧ (∀ key : string, doc_key doc = Some key →
       res = map (λ r, (key, PQgetvalue r 0 0)) rs)
  ∧ (doc_key doc = None →
       res = map (λ r, ("oid", Some (pretty (PQoidValue r)))) rs
       ∧ ∀ (i : nat) (r : option PGresult),
           rs !! i = Some r → PQoidValue r = 0 → res !! i = Some ("oid", Some "0"))
  ∧ (doc_fids_fit_int doc = true →
       Forall2 (λ ptr_n value_ar,
                  record_values (field_index (doc_fields doc))
                    (length (doc_fields doc)) ptr_n = Returns value_ar)
         (doc_records doc) (exec_params (since w w'))).
Proof.
  intros Hrun rs. subst rs.
  apply pgsql_INSERT_success in Hrun
    as (table & fields_n & recs_n & names & w0 & dbres & Hdoc & Hnames & Hprep & Hrun).
  apply insert_records_success in Hrun as (rs & Hrs & ->).
  apply runs_ok_trace in Hrs as (evs & Htr & Hres & Hlen & Hn & Hpar).
  rewrite PQprepare_run in Hprep. injection Hprep as <- _. simpl in Htr.
  rewrite <- app_assoc in Htr. apply since_app in Htr. rewrite Htr.
  assert (Hrecs : doc_records doc = List.filter (λ n, is_element (rec_type n)) recs_n)
    by (rewrite Hdoc; reflexivity).
  assert (Hflds : doc_fields doc = element_fields fields_n)
    by (rewrite Hdoc; reflexivity).
  rewrite Hrecs, Hflds.
  rewrite exec_results_app, exec_params_app, Hres. simpl.
  rewrite length_map.
  split; [done|]. split; [done|]. split; [by intros k ->|].
  split; [|done].
  intros ->. split; [done|].
  intros i r Hi H0. change (map ?f ?l) with (f <$> l).
  unfold eurephiaVALUES. rewrite list_lookup_fmap, Hi. simpl.
  unfold decimal. by rewrite H0.
Qed.

End InsertProperties.

Section SkippedValues.
Context {L : libpq}.

(** Where a value is stored does not depend on its fid: two lists of values
    that agree on everything but the fids of the values taken fill
    [value_ar] alike. *)
Lemma fill_value_ar_ignores_fid (field_idx : list Z) (fieldcnt : nat)
    (vals vals' : list valueNode) :
  Forall2 (λ v v', val_type v = val_type v'
                   ∧ val_content v = val_content v'
                   ∧ value_taken v = value_taken v') vals vals' →
  ∀ (i : nat) (value_ar : list (option string)),
    fill_value_ar field_idx fieldcnt vals i value_ar
    = fill_value_ar field_idx fieldcnt vals' i value_ar.
Proof.
  induction 1 as [|v v' vals vals' (Hty & Hc & Htaken) _ IH]; intros i value_ar;
    [reflexivity|].
  cbn [fill_value_ar]. rewrite <- Hty, <- Hc.
  destruct (fieldcnt <? i)%nat; [reflexivity|].
  destruct (negb (is_element (val_type v))); [apply IH|].
  unfold value_taken in Htaken.
  destruct (val_fid v) as [fid_s|], (val_fid v') as [fid_s'|]; cbn [atoi_nullsafe].
  - destruct (atoi fid_s <? 0), (atoi fid_s' <? 0); try discriminate; [apply IH|].
    destruct (_ <? Z.of_nat fieldcnt); [apply IH|reflexivity].
  - destruct (atoi fid_s <? 0); [apply IH|discriminate].
  - destruct (atoi fid_s' <? 0); [apply IH|discriminate].
  - apply IH.
Qed.

Lemma fill_value_ar_break (field_idx : list Z) (fieldcnt : nat)
    (vals : list valueNode) (i : nat) (value_ar : list (option string)) :
  (fieldcnt < i)%nat →
  fill_value_ar field_idx fieldcnt vals i value_ar = Returns value_ar.
Proof.
  intros Hi. destruct vals; simpl; [reflexivity|].
  apply Nat.ltb_lt in Hi. by rewrite Hi.
Qed.

(** The loop over the values passes over an element without fid, or with a
    negative one, as if it were not there. *)
Lemma fill_value_ar_skipped (field_idx : list Z) (fieldcnt : nat)
    (vals : list valueNode) :
  ∀ (i : nat) (value_ar : list (option string)),
    fill_value_ar field_idx fieldcnt
      (List.filter (λ v, negb (is_element (val_type v)) || value_taken v) vals)
      i value_ar
    = fill_value_ar field_idx fieldcnt vals i value_ar.
Proof.
  induction vals as [|val_n rest IH]; intros i value_ar; [reflexivity|].
  cbn [List.filter fill_value_ar].
  destruct (fieldcnt <? i)%nat eqn:Hi.
  { apply fill_value_ar_break. by apply Nat.ltb_lt. }
  unfold value_taken.
  destruct (is_element (val_type val_n)) eqn:Hty; cbn [negb orb].
  - destruct (val_fid val_n) as [fid_s|] eqn:Hfid; [|apply IH].
    cbn [atoi_nullsafe].
    destruct (atoi fid_s <? 0) eqn:Hneg; cbn [negb]; [apply IH|].
    cbn [fill_value_ar]. rewrite Hi, Hty, Hfid; cbn [negb atoi_nullsafe].
    rewrite Hneg. destruct (_ <? Z.of_nat fieldcnt); [apply IH|reflexivity].
  - cbn [fill_value_ar]. rewrite Hi, Hty; cbn [negb]. apply IH.
Qed.

Lemma insert_records_skipped (key : option string) (field_idx : list Z)
    (fieldcnt : nat) (recs : list recordNode) :
  ∀ (res : eurephiaVALUES) (w : world),
    insert_records key field_idx fieldcnt (map drop_skipped_values recs) res w
    = insert_records key field_idx fieldcnt recs res w.
Proof.
  induction recs as [|ptr_n rest IH]; intros res w; [reflexivity|].
  cbn [map insert_records]. cbn [drop_skipped_values rec_type].
  destruct (is_element (rec_type ptr_n)); cbn [negb]; [|apply IH].
  unfold record_values at 1. cbn [drop_skipped_values rec_children].
  rewrite fill_value_ar_skipped. fold (record_values field_idx fieldcnt ptr_n).
  destruct (record_values field_idx fieldcnt ptr_n) as [value_ar|]; [|reflexivity].
  unfold bind. destruct (PQexecPrepared fieldcnt value_ar w) as [w1 [dbres|]];
    [|reflexivity].
  destruct (negb _); [reflexivity|apply IH].
Qed.

(** C4, as the code has it.  In a document whose fid attributes are
    numerals an [int] holds, a <value> element whose fid attribute is
    missing or negative is passed over, not refused: [pgsql_INSERT] makes
    the same calls and returns the same as on the document without these
    values, so each record is still executed. *)
Theorem insert_skips_values_without_fid (doc : xmlDoc) (w : world) :
  doc_fids_fit_int doc = true →
  pgsql_INSERT doc w = pgsql_INSERT (without_skipped_values doc) w.
Proof.
  intros _.
  destruct doc as [[[name table key fields_n recs_n]|]]; [|reflexivity].
  unfold pgsql_INSERT, without_skipped_values; simpl.
  destruct (negb (String.eqb name "sqldata")); [reflexivity|].
  destruct table as [table|]; [|reflexivity].
  destruct fields_n as [fields_n|]; [|reflexivity].
  destruct recs_n as [recs_n|]; [|reflexivity]. simpl.
  destruct (field_names _) as [names|]; [|reflexivity].
  unfold bind. destruct (PQprepare _ _ w) as [w0 [dbres|]]; [|reflexivity].
  destruct (negb _); [reflexivity|].
  symmetry. apply insert_records_skipped.
Qed.

End SkippedValues.

Section Registration.
Context {L : libpq} {X : xmlparser}.

Lemma PQexec_run (q : sql_command) (w : world) (c : PGconn) (r : option PGresult) :
  pq_exec (dbc w) q = (c, r) →
  PQexec q w = (mkWorld c (trace w ++ [EvPQexec q r]), Returns r).
Proof. intros Hq. unfold PQexec. by rewrite Hq. Qed.

(** A call of [pgsql_INSERT] that returns a result has made calls. *)
Lemma pgsql_INSERT_success_trace (doc : xmlDoc) (w w' : world)
    (res : eurephiaVALUES) :
  pgsql_INSERT doc w = (w', Returns (Some res)) →
  (length (trace w) < length (trace w'))%nat.
Proof.
  intros Hrun.
  apply pgsql_INSERT_success in Hrun
    as (table & fields_n & recs_n & names & w0 & dbres & _ & _ & Hprep & Hrun).
  apply insert_records_success in Hrun as (rs & Hrs & _).
  apply runs_ok_trace in Hrs as (evs & Htr & _).
  rewrite PQprepare_run in Hprep. injection Hprep as <- _.
  rewrite Htr. simpl. rewrite !length_app. simpl. lia.
Qed.

(** C2, as the code has it.  The sysid of the report is found once in
    systems: the syskey of that row is taken, and the systems document is
    not inserted.  The host is looked up in systems_hostname by hostname and
    ipaddr alone, whatever syskey the rows found carry.  Only if that
    lookup finds no row is the host document inserted; the function then
    returns the syskey if the insert returned a result and -1 if it did
    not.  If the lookup finds a row, nothing is inserted and the syskey is
    returned. *)
Theorem register_known_system (w : world) (xslt : xsltStylesheet)
    (summaryxml : summaryXML) (sysinfo_d : xmlDoc) (sysid : string)
    (c1 : PGconn) (r1 : option PGresult)
    (hostinfo_d : xmlDoc) (hostname ipaddr : string)
    (c2 : PGconn) (r2 : option PGresult) :
  parseToSQLdata xslt summaryxml (mkParams "systems" 0 None 0) = Some sysinfo_d →
  sqldataGetValue sysinfo_d "sysid" 0 = Some sysid →
  let find_system := SelectSystem (substring 0 256 sysid) in
  pq_exec (dbc w) find_system = (c1, r1) →
  PQresultStatus r1 = PGRES_TUPLES_OK →
  PQntuples r1 = 1%nat →
  let syskey := atoi_nullsafe (PQgetvalue r1 0 0) in
  sqldataGetHostInfo xslt summaryxml syskey = Some (hostinfo_d, hostname, ipaddr) →
  let find_host := SelectHostname (substring 0 256 hostname) (substring 0 64 ipaddr) in
  pq_exec c1 find_host = (c2, r2) →
  PQresultStatus r2 = PGRES_TUPLES_OK →
  let w2 := mkWorld c2 (trace w ++ [EvPQexec find_system r1; EvPQexec find_host r2]) in
  db_register_system xslt summaryxml w =
    if (PQntuples r2 =? 0)%nat
    then match pgsql_INSERT hostinfo_d w2 with
         | (w3, Returns (Some _)) => (w3, Returns syskey)
         | (w3, Returns None) => (w3, Returns (-1))
         | (w3, Undefined) => (w3, Undefined)
         end
    else (w2, Returns syskey).
Proof.
  intros Hparse Hsysid find_system Hq1 Hst1 Hn1 syskey Hhost find_host Hq2 Hst2 w2.
  unfold db_register_system. rewrite Hparse, Hsysid.
  unfold bind at 1. fold find_system. rewrite (PQexec_run _ _ _ _ Hq1).
  apply ExecStatusType_eqb_eq in Hst1. rewrite Hst1, Hn1. cbn [negb Nat.eqb].
  fold syskey. rewrite Hhost.
  unfold bind at 1. fold find_host.
  rewrite (PQexec_run find_host (mkWorld c1 _) c2 r2 Hq2).
  apply ExecStatusType_eqb_eq in Hst2. rewrite Hst2. cbn [negb trace].
  rewrite <- app_assoc. cbn [app]. fold w2.
  destruct (PQntuples r2 =? 0)%nat; [|reflexivity].
  unfold bind. destruct (pgsql_INSERT hostinfo_d w2) as [w3 [[dbdata|]|]]; reflexivity.
Qed.

(** C8. [db_register_rtevalrun] inserts the rtevalruns document and reads
    the rterid from the one entry that insert returns; it then inserts the
    rtevalruns_details document made for that rterid.  With numbers an [int]
    holds:
    - if the first insert returns one entry with an rterid of 1 or more and
      the second insert returns one entry, the call ends where the second
      insert ends and returns that rterid;
    - a call that returns, returns -1 or a positive number, and a positive
      number only in the way just described;
    - if the call ends where the second insert ends, after both inserts
      returned one entry, the rterid is positive and is what is returned. *)
Theorem register_run_result (xslt : xsltStylesheet) (summaryxml : summaryXML)
    (syskey : Z) (report_fname : option string) (w : world) :
  let run := db_register_rtevalrun xslt summaryxml syskey report_fname w in
  let rtevalruns :=
    parseToSQLdata xslt summaryxml (mkParams "rtevalruns" syskey report_fname 0) in
  let details (rterid : Z) :=
    parseToSQLdata xslt summaryxml (mkParams "rtevalruns_details" 0 None rterid) in
  (∀ rtevalrun_d w1 dbdata1 rtevalrundets_d w2 dbdata2,
     rtevalruns = Some rtevalrun_d →
     pgsql_INSERT rtevalrun_d w = (w1, Returns (Some dbdata1)) →
     eCount dbdata1 = 1%nat →
     let rterid := atoi_nullsafe (eurephia_val dbdata1) in
     1 ≤ rterid < 2 ^ 31 →
     details rterid = Some rtevalrundets_d →
     pgsql_INSERT rtevalrundets_d w1 = (w2, Returns (Some dbdata2)) →
     eCount dbdata2 = 1%nat →
     run = (w2, Returns rterid))
  ∧ (∀ w' r,
       run = (w', Returns r) →
       fits_int r = true →
       r = -1
       ∨ (0 < r
          ∧ ∃ rtevalrun_d w1 dbdata1 rtevalrundets_d dbdata2,
              rtevalruns = Some rtevalrun_d
              ∧ pgsql_INSERT rtevalrun_d w = (w1, Returns (Some dbdata1))
              ∧ eCount dbdata1 = 1%nat
              ∧ r = atoi_nullsafe (eurephia_val dbdata1)
              ∧ details r = Some rtevalrundets_d
              ∧ pgsql_INSERT rtevalrundets_d w1 = (w', Returns (Some dbdata2))
              ∧ eCount dbdata2 = 1%nat))
  ∧ (∀ rtevalrun_d w1 dbdata1 rtevalrundets_d dbdata2,
       rtevalruns = Some rtevalrun_d →
       pgsql_INSERT rtevalrun_d w = (w1, Returns (Some dbdata1)) →
       eCount dbdata1 = 1%nat →
       let rterid := atoi_nullsafe (eurephia_val dbdata1) in
       fits_int rterid = true →
       details rterid = Some rtevalrundets_d →
       pgsql_INSERT rtevalrundets_d w1 = (run.1, Returns (Some dbdata2)) →
       eCount dbdata2 = 1%nat →
       0 < rterid ∧ run.2 = Returns rterid).
Proof.
  intros run rtevalruns details. subst run rtevalruns details.
  split; [|split].
  - intros d1 w1 v1 d2 w2 v2 Hp1 Hi1 Hc1 rterid Hid Hp2 Hi2 Hc2.
    unfold db_register_rtevalrun. rewrite Hp1.
    unfold bind at 1. rewrite Hi1, Hc1. cbn [Nat.eqb negb]. fold rterid.
    destruct (Z.ltb_spec rterid 1) as [?|_]; [lia|].
    rewrite Hp2. unfold bind. rewrite Hi2, Hc2. reflexivity.
  - intros w' r. unfold db_register_rtevalrun.
    destruct (parseToSQLdata xslt summaryxml (mkParams "rtevalruns" _ _ _))
      as [d1|] eqn:Hp1; [|intros [= <- <-] _; by left].
    unfold bind at 1.
    destruct (pgsql_INSERT d1 w) as [w1 [[v1|]|]] eqn:Hi1;
      [|intros [= <- <-] _; by left|discriminate].
    destruct (eCount v1 =? 1)%nat eqn:Hc1; cbn [negb];
      [|intros [= <- <-] _; by left].
    destruct (atoi_nullsafe (eurephia_val v1) <? 1) eqn:Hid;
      [intros [= <- <-] _; by left|].
    apply Z.ltb_ge in Hid.
    destruct (parseToSQLdata xslt summaryxml
                (mkParams "rtevalruns_details" 0 None (atoi_nullsafe (eurephia_val v1))))
      as [d2|] eqn:Hp2; [|intros [= <- <-] _; by left].
    unfold bind.
    destruct (pgsql_INSERT d2 w1) as [w2 [[v2|]|]] eqn:Hi2;
      [|intros [= <- <-] _; by left|discriminate].
    destruct (eCount v2 =? 1)%nat eqn:Hc2; cbn [negb];
      [|intros [= <- <-] _; by left].
    intros [= <- <-] _. right. split; [lia|].
    exists d1, w1, v1, d2, v2. apply Nat.eqb_eq in Hc1, Hc2. done.
  - intros d1 w1 v1 d2 v2 Hp1 Hi1 Hc1 rterid _ Hp2.
    unfold db_register_rtevalrun. rewrite Hp1.
    unfold bind at 1 3. rewrite Hi1, Hc1. cbn [Nat.eqb negb]. fold rterid.
    destruct (Z.ltb_spec rterid 1) as [Hid|Hid].
    { cbn [ret fst snd]. intros Hi2 _.
      apply pgsql_INSERT_success_trace in Hi2. lia. }
    rewrite Hp2. unfold bind.
    destruct (pgsql_INSERT d2 w1) as [w2 [[v2'|]|]]; cbn [fst snd].
    + intros [= _ ->] ->. cbn [Nat.eqb negb]. split; [lia|reflexivity].
    + discriminate.
    + discriminate.
Qed.

End Registration.

(** ** The functions on the reference store *)

Section OnTheReferenceStore.
Import Ref.

Lemma update_row_other (status : queue_status) (st : stamp) (submid now : Z)
    (q : list queue_row) :
  Forall (λ r, q_submid r ≠ submid) q →
  map (update_row status st submid now) q = q.
Proof.
  induction 1 as [|r q Hr _ IH]; [reflexivity|]. simpl. rewrite IH.
  unfold update_row. apply Z.eqb_neq in Hr. by rewrite Hr.
Qed.

(** C10. In the reference store, an UPDATE that matches no row changes no
    row and comes back with PGRES_COMMAND_OK.  So for a submid that no row
    of the queue has, and every status but STAT_NEW,
    [db_update_submissionqueue] returns 1: the queue and the tables are
    as before, and that there was no such job is not reported. *)
Theorem update_of_missing_job_succeeds (s : store) (t : list event)
    (submid : Z) (status : queue_status) :
  status ≠ STAT_NEW →
  Forall (λ r, q_submid r ≠ submid) (submissionqueue s) →
  ∃ w', db_update_submissionqueue submid (Stat status) (mkWorld s t) = (w', Returns 1)
        ∧ submissionqueue (dbc w') = submissionqueue s
        ∧ rows (dbc w') = rows s.
Proof.
  intros Hnew Hrows.
  destruct (status_stamp status) as [st|] eqn:Hst; [|by destruct status].
  exists (@mkWorld pq (exec s (UpdateQueue status st submid)).1
            (t ++ [EvPQexec (UpdateQueue status st submid) command_ok])).
  split.
  - by rewrite (db_update_submissionqueue_run submid status st (@mkWorld pq s t)
                  _ _ Hst eq_refl).
  - simpl. by rewrite update_row_other.
Qed.

(** C10 at work: no row of the queue has submid 5. *)
Lemma update_of_missing_job_succeeds_witness :
  ∃ w', db_update_submissionqueue 5 (Stat STAT_SUCCESS) (@mkWorld pq some_queue [])
          = (w', Returns 1)
        ∧ submissionqueue (dbc w') = submissionqueue some_queue
        ∧ rows (dbc w') = rows some_queue.
Proof.
  apply (update_of_missing_job_succeeds some_queue [] 5 STAT_SUCCESS).
  - discriminate.
  - repeat constructor; simpl; lia.
Defined.

(** C6 at work: of the two new jobs the one with the lower submid is marked
    assigned and returned. *)
Lemma checkout_paths_witness :
  (db_get_submissionqueue_job (start some_queue)).2
    = Returns (Some (mkJob jbAVAIL 3 "three.xml"))
  ∧ map (λ r, (q_submid r, q_status r))
      (submissionqueue (dbc (db_get_submissionqueue_job (start some_queue)).1))
    = [(7, STAT_NEW); (3, STAT_ASSIGNED); (1, STAT_SUCCESS)].
Proof.
  destruct (checkout_paths (start some_queue) _ _ eq_refl) as (_ & _ & Hfound).
  destruct (Hfound "three.xml" _ _ eq_refl eq_refl eq_refl eq_refl) as [_ Hrun].
  rewrite Hrun. split; reflexivity.
Defined.

(** C1 on the code.  The fields are syskey (fid 0), hostname (fid 1) and
    ipaddr (fid 2); the record gives fid 0, then fid 2, then fid 1.  The
    values are stored in the order they come: the address is bound to $2,
    the hostname column, and the name to $3, the ipaddr column. *)
Theorem values_bound_in_arrival_order :
  record_values (field_index host_fields) 3 swapped_record
    = Returns [Some "1"; Some "10.0.0.1"; Some "node1"]
  ∧ rows (dbc (pgsql_INSERT swapped_doc (start empty)).1)
    = [("systems_hostname",
        [("syskey", Some "1"); ("hostname", Some "10.0.0.1");
         ("ipaddr", Some "node1")])].
Proof. split; reflexivity. Qed.

(** C4 does not hold of the code.  The record has a value with fid -1,
    which no field has; [pgsql_INSERT] does not fail: the statement is
    executed with the other three values and a result is returned. *)
Lemma stray_value_is_not_refused :
  Forall (λ f, fld_fid f ≠ val_fid (value (-1) "junk")) host_fields
  ∧ doc_records stray_doc
    = [record [value 0 "1"; value (-1) "junk"; value 1 "node1"; value 2 "10.0.0.1"]]
  ∧ (pgsql_INSERT stray_doc (start empty)).2 = Returns (Some [("oid", Some "0")])
  ∧ exec_params (trace (pgsql_INSERT stray_doc (start empty)).1)
    = [[Some "1"; Some "node1"; Some "10.0.0.1"]].
Proof.
  split; [repeat constructor; discriminate|]. repeat split; reflexivity.
Qed.

(** C4 at work: the same record, with and without the value of fid -1. *)
Lemma insert_skips_values_without_fid_witness :
  doc_fids_fit_int stray_doc = true
  ∧ doc_records (without_skipped_values stray_doc)
    = [record [value 0 "1"; value 1 "node1"; value 2 "10.0.0.1"]]
  ∧ pgsql_INSERT stray_doc (start empty)
    = pgsql_INSERT (without_skipped_values stray_doc) (start empty).
Proof.
  split; [reflexivity|]. split; [reflexivity|].
  exact (insert_skips_values_without_fid stray_doc (start empty) eq_refl).
Defined.

(** C3 at work: the second of three host records has no ipaddr, which the
    store refuses.  NULL is returned, the third record is not executed, and
    the row of the first record is in the table. *)
Lemma insert_fails_fast_witness :
  (pgsql_INSERT three_hosts_doc (start empty)).2 = Returns None
  ∧ exec_params (trace (pgsql_INSERT three_hosts_doc (start empty)).1)
    = [[Some "1"; Some "node1"; Some "10.0.0.1"]; [Some "2"; Some "node2"; None]]
  ∧ table_rows "systems_hostname" (dbc (pgsql_INSERT three_hosts_doc (start empty)).1)
    = [[("syskey", Some "1"); ("hostname", Some "node1"); ("ipaddr", Some "10.0.0.1")]].
Proof.
  pose (stmt := mkInsert "systems_hostname" ["syskey"; "hostname"; "ipaddr"] None).
  pose (w0 := (PQprepare stmt 3 (start empty)).1).
  pose (w1 := (PQexecPrepared 3 [Some "1"; Some "node1"; Some "10.0.0.1"] w0).1).
  pose (w2 := (PQexecPrepared 3 [Some "2"; Some "node2"; None] w1).1).
  destruct (insert_fails_fast (start empty) w0 w1 w2 "systems_hostname" None host_fields
              [blank; complete_host 1 "node1" "10.0.0.1"; blank] incomplete_host
              [blank; complete_host 3 "node3" "10.0.0.3"]
              ["syskey"; "hostname"; "ipaddr"] [command_ok]
              [Some "2"; Some "node2"; None] command_ok fatal_error) as (Hrun & _).
  - reflexivity.
  - reflexivity.
  - reflexivity.
  - apply runs_skip; [reflexivity|].
    eapply runs_exec; [reflexivity|reflexivity|reflexivity|reflexivity|].
    apply runs_skip; [reflexivity|]. apply runs_nil.
  - reflexivity.
  - reflexivity.
  - reflexivity.
  - discriminate.
  - unfold three_hosts_doc. rewrite Hrun. repeat split; reflexivity.
Defined.

(** C5 at work: two systems inserted with RETURNING syskey, and a host
    inserted without a key into tables that carry OIDs. *)
Lemma insert_results_witness :
  let run := pgsql_INSERT two_systems_doc (start empty) in
  let rs := exec_results (since (start empty) run.1) in
  let hosts := pgsql_INSERT (L := pq_with_oids) swapped_doc (@mkWorld pq_with_oids empty []) in
  let hs := exec_results (since (@mkWorld pq_with_oids empty []) hosts.1) in
  (run.2 = Returns (Some [("syskey", Some "1"); ("syskey", Some "2")])
   ∧ rs = [tuples_ok [["1"]]; tuples_ok [["2"]]]
   ∧ [("syskey", Some "1"); ("syskey", Some "2")]
     = map (λ r, ("syskey", PQgetvalue r 0 0)) rs
   ∧ Forall2 (λ ptr_n value_ar,
                record_values (field_index (doc_fields two_systems_doc))
                  (length (doc_fields two_systems_doc)) ptr_n = Returns value_ar)
       (doc_records two_systems_doc) (exec_params (since (start empty) run.1)))
  ∧ (hosts.2 = Returns (Some [("oid", Some "16385")])
     ∧ hs = [Some (mkResult PGRES_COMMAND_OK [] 16385)]
     ∧ [("oid", Some "16385")] = map (λ r, ("oid", Some (pretty (PQoidValue r)))) hs).
Proof.
  intros run rs hosts hs. split.
  - destruct (insert_results two_systems_doc (start empty) _ _ eq_refl)
      as (_ & _ & Hkey & _ & Hpar).
    split; [reflexivity|]. split; [reflexivity|].
    split; [exact (Hkey "syskey" eq_refl)|exact (Hpar eq_refl)].
  - destruct (insert_results (L := pq_with_oids) swapped_doc
                (@mkWorld pq_with_oids empty []) _ _ eq_refl)
      as (_ & _ & _ & Hoid & _).
    split; [reflexivity|]. split; [reflexivity|].
    exact (proj1 (Hoid eq_refl)).
Defined.

(** C9 at work: a systems document with no record, and the same for a
    table the store does not have. *)
Lemma insert_without_records_witness :
  (pgsql_INSERT (sqldata_doc "systems" (Some "syskey") [field 0 "sysid"] [blank])
     (start empty)).2 = Returns (Some [])
  ∧ (pgsql_INSERT (sqldata_doc "nosuch" (Some "syskey") [field 0 "sysid"] [])
       (start empty)).2 = Returns None.
Proof.
  split.
  - rewrite (insert_without_records (start empty) "systems" (Some "syskey")
               [field 0 "sysid"] [blank] ["sysid"]); [reflexivity| |reflexivity].
    repeat constructor.
  - rewrite (insert_without_records (start empty) "nosuch" (Some "syskey")
               [field 0 "sysid"] [] ["sysid"]); [reflexivity| |reflexivity].
    constructor.
Defined.

(** C2 does not hold of the code.  The system abc has one row in systems,
    with syskey 1.  Its host, node1 at 10.0.0.1, is bound to syskey 2 and
    not to syskey 1.  The registration returns 1 and inserts no host row. *)
Lemma host_of_other_system_is_not_bound :
  (exec host_of_other_system (SelectSystem "abc")).2 = tuples_ok [["1"]]
  ∧ List.filter (λ r, has r "syskey" "1" && has r "hostname" "node1"
                      && has r "ipaddr" "10.0.0.1")
      (table_rows "systems_hostname" host_of_other_system) = []
  ∧ (db_register_system tt report_abc (start host_of_other_system)).2 = Returns 1
  ∧ rows (dbc (db_register_system tt report_abc (start host_of_other_system)).1)
    = rows host_of_other_system.
Proof. repeat split; reflexivity. Qed.

(** C2 at work: abc is known and no host is; the host row is inserted with
    the syskey of abc, and systems stays as it is. *)
Lemma register_known_system_witness :
  (db_register_system tt report_abc (start two_systems)).2 = Returns 1
  ∧ table_rows "systems_hostname"
      (dbc (db_register_system tt report_abc (start two_systems)).1)
    = [[("syskey", Some "1"); ("hostname", Some "node1"); ("ipaddr", Some "10.0.0.1")]]
  ∧ table_rows "systems" (dbc (db_register_system tt report_abc (start two_systems)).1)
    = table_rows "systems" two_systems.
Proof.
  rewrite (register_known_system (L := pq) (X := parser) (start two_systems) tt report_abc
             _ "abc" _ _ _ _ _ _ _ eq_refl eq_refl eq_refl eq_refl eq_refl
             eq_refl eq_refl eq_refl).
  repeat split; reflexivity.
Defined.

(** C8 at work: both inserts return one entry; the run gets the next
    number of the sequence, 3, and the details are stored under it. *)
Lemma register_run_result_witness :
  let run :=
    db_register_rtevalrun tt report_abc 1 (Some "report.xml") (start two_systems) in
  run.2 = Returns 3
  ∧ table_rows "rtevalruns" (dbc run.1)
    = [[("rterid", Some "3"); ("syskey", Some "1");
        ("report_filename", Some "report.xml")]]
  ∧ map (λ r, col r "rterid") (table_rows "rtevalruns_details" (dbc run.1))
    = [Some "3"].
Proof.
  intros run.
  destruct (register_run_result (L := pq) (X := parser) tt report_abc 1
              (Some "report.xml") (start two_systems)) as (Hboth & _).
  cbv zeta in Hboth.
  unshelve epose proof (Hboth _ _ _ _ _ _ eq_refl eq_refl eq_refl _
                          eq_refl eq_refl eq_refl) as Hrun.
  { vm_compute. split; [discriminate|reflexivity]. }
  subst run. rewrite Hrun. repeat split; reflexivity.
Defined.

End OnTheReferenceStore.

(** * More of the code

    The values of a record, the calls of [pgsql_INSERT], the queue and the
    registrations, beyond the statements above. *)

Section Numbers.







End Numbers.
Section RecordValues.

Lemma store_values_length (slots : list Z) (cs value_ar : list (option string)) :
  length (store_values slots cs value_ar) = length value_ar.
Proof.
  unfold store_values. revert value_ar.
  induction (zip slots cs) as [|p l IH]; intros value_ar; [reflexivity|].
  simpl. by rewrite IH, length_insert.
Qed.

Lemma taken_contents_cons (val_n : valueNode) (rest : list valueNode) :
  taken_contents (val_n :: rest) =
    if is_element (val_type val_n) && value_taken val_n
    then val_content val_n :: taken_contents rest
    else taken_contents rest.
Proof.
  unfold taken_contents. cbn [List.filter].
  by destruct (is_element (val_type val_n) && value_taken val_n).
Qed.

(** The loop over the values in closed form: the values taken go, in the
    order they come, to the slots the index table gives from [i] on; one
    slot that is not below fieldcnt makes the run undefined. *)
Lemma fill_value_ar_closed (field_idx : list Z) (fieldcnt : nat)
    (vals : list valueNode) :
  length field_idx = S fieldcnt →
  ∀ (i : nat) (value_ar : list (option string)),
    (i ≤ S fieldcnt)%nat →
    fill_value_ar field_idx fieldcnt vals i value_ar =
      let cs := taken_contents vals in
      let slots := take (length cs) (drop i field_idx) in
      if forallb (λ z, z <? Z.of_nat fieldcnt) slots
      then Returns (store_values slots cs value_ar)
      else Undefined.
Proof.
  intros Hlen. induction vals as [|val_n rest IH]; intros i value_ar Hi;
    [reflexivity|].
  cbn [fill_value_ar]. destruct (fieldcnt <? i)%nat eqn:Hbreak.
  { apply Nat.ltb_lt in Hbreak. rewrite drop_ge by lia.
    by rewrite take_nil. }
  apply Nat.ltb_ge in Hbreak. rewrite taken_contents_cons.
  unfold value_taken.
  destruct (is_element (val_type val_n)); cbn [negb andb]; [|by apply IH].
  destruct (val_fid val_n) as [fid_s|]; cbn [atoi_nullsafe]; [|by apply IH].
  destruct (atoi fid_s <? 0); cbn [negb]; [by apply IH|].
  destruct (lookup_lt_is_Some_2 field_idx i) as [z Hz]; [lia|].
  rewrite (drop_S _ _ _ Hz). cbn [length take forallb].
  rewrite (nth_lookup_Some _ _ _ _ Hz).
  destruct (z <? Z.of_nat fieldcnt); cbn [andb]; [|reflexivity].
  rewrite IH by lia. reflexivity.
Qed.

Lemma record_values_closed (field_idx : list Z) (fieldcnt : nat)
    (ptr_n : recordNode) :
  length field_idx = S fieldcnt →
  record_values field_idx fieldcnt ptr_n =
    let cs := taken_contents (rec_children ptr_n) in
    let slots := take (length cs) field_idx in
    if forallb (λ z, z <? Z.of_nat fieldcnt) slots
    then Returns (store_values slots cs (replicate fieldcnt None))
    else Undefined.
Proof.
  intros Hlen. unfold record_values.
  rewrite (fill_value_ar_closed _ _ _ Hlen) by lia. reflexivity.
Qed.

Lemma field_index_length (elems : list fieldNode) :
  length (field_index elems) = S (length elems).
Proof. unfold field_index. rewrite length_app, length_map. simpl. lia. Qed.

(** Storing at the slots k, k+1, ... *)
Lemma store_values_in_order (cs : list (option string)) :
  ∀ (k : nat) (value_ar : list (option string)),
    (k + length cs ≤ length value_ar)%nat →
    store_values (map Z.of_nat (seq k (length cs))) cs value_ar
    = (take k value_ar ++ cs ++ drop (k + length cs) value_ar)%list.
Proof.
  induction cs as [|c cs IH]; intros k value_ar Hk.
  - simpl. by rewrite Nat.add_0_r, take_drop.
  - cbn [length seq map]. unfold store_values. cbn [zip zip_with foldl fst snd].
    rewrite Nat2Z.id. fold (store_values (map Z.of_nat (seq (S k) (length cs))) cs
                              (<[k:=c]> value_ar)).
    cbn [length] in Hk.
    rewrite IH by (rewrite length_insert; lia).
    rewrite (take_S_r _ _ c) by (apply list_lookup_insert_eq; lia).
    rewrite take_insert_ge by lia.
    rewrite drop_insert_lt by lia.
    rewrite <- app_assoc. cbn [app].
    replace (S k + length cs)%nat with (k + S (length cs))%nat by lia. reflexivity.
Qed.

End RecordValues.

Section RecordValuesProperties.

Lemma forallb_below (n m : nat) (k : nat) :
  (k + m ≤ n)%nat →
  forallb (λ z, z <? Z.of_nat n) (map Z.of_nat (seq k m)) = true.
Proof.
  revert k. induction m as [|m IH]; intros k Hk; [reflexivity|].
  cbn [seq map forallb]. rewrite IH by lia.
  destruct (Z.ltb_spec (Z.of_nat k) (Z.of_nat n)); [reflexivity|lia].
Qed.

Lemma take_in_order (n m : nat) (tail : list Z) :
  (m ≤ n)%nat →
  take m (map Z.of_nat (seq 0 n) ++ tail) = map Z.of_nat (seq 0 m).
Proof.
  intros Hm. rewrite take_app_le by (rewrite length_map, length_seq; lia).
  generalize 0%nat. revert n Hm.
  induction m as [|m IH]; intros n Hm k; [by rewrite take_0|].
  destruct n as [|n]; [lia|]. cbn [seq map take]. f_equal. apply IH. lia.
Qed.

(** An [int] that is not negative is the same as an [unsigned int]. *)
Lemma to_uint_fits (z : Z) : fits_int z = true → 0 ≤ z → to_uint z = z.
Proof.
  unfold fits_int, to_uint. intros [_ Hz%Z.ltb_lt]%andb_true_iff H0.
  apply Z.mod_small. lia.
Qed.

(** The index table of fields whose fids read 0, 1, ..., n-1. *)
Lemma field_index_in_order (elems : list fieldNode) :
  fields_fit_int elems = true →
  map (λ n, atoi_nullsafe (fld_fid n)) elems = map Z.of_nat (seq 0 (length elems)) →
  field_index elems = (map Z.of_nat (seq 0 (length elems)) ++ [0])%list.
Proof.
  intros Hfit Hfids. unfold field_index. f_equal. rewrite <- Hfids.
  apply map_ext_in. intros f Hf.
  assert (Hin : In (atoi_nullsafe (fld_fid f)) (map Z.of_nat (seq 0 (length elems))))
    by (rewrite <- Hfids; apply in_map_iff; eauto).
  apply in_map_iff in Hin as (k & Hk & _).
  unfold fields_fit_int in Hfit. rewrite forallb_forall in Hfit.
  apply to_uint_fits; [by apply Hfit|lia].
Qed.

(** X1. The fields carry the fids 0, 1, ..., n-1 in the order they are
    declared, the fids of the values are numerals an [int] holds, and a
    record has at most n values that are taken: the values are bound in the
    order they come, value j to parameter j+1, and the parameters no value
    is left for are NULL. *)
Theorem values_in_field_order (elems : list fieldNode) (ptr_n : recordNode) :
  let n := length elems in
  let cs := taken_contents (rec_children ptr_n) in
  fields_fit_int elems = true →
  values_fit_int (rec_children ptr_n) = true →
  map (λ f, atoi_nullsafe (fld_fid f)) elems = map Z.of_nat (seq 0 n) →
  (length cs ≤ n)%nat →
  record_values (field_index elems) n ptr_n
    = Returns (cs ++ replicate (n - length cs) None).
Proof.
  intros n cs Hfit _ Hfids Hcs.
  pose proof (field_index_in_order elems Hfit Hfids) as Hidx. fold n in Hidx.
  rewrite record_values_closed by apply field_index_length. cbv zeta.
  fold cs. rewrite Hidx, take_in_order by exact Hcs.
  rewrite forallb_below by lia.
  rewrite store_values_in_order by (rewrite length_replicate; lia).
  by rewrite drop_replicate.
Qed.

(** X2. With the fids 0, ..., n-1 in order, n at least 1 and the fids of
    the values numerals an [int] holds, a record with more than n values
    taken: value n+1 replaces the first parameter, and the values after it
    are not looked at. *)
Theorem value_beyond_fields_replaces_first (elems : list fieldNode)
    (ptr_n : recordNode) (cs : list (option string)) (c : option string)
    (more : list (option string)) :
  let n := length elems in
  fields_fit_int elems = true →
  values_fit_int (rec_children ptr_n) = true →
  map (λ f, atoi_nullsafe (fld_fid f)) elems = map Z.of_nat (seq 0 n) →
  taken_contents (rec_children ptr_n) = (cs ++ c :: more)%list →
  length cs = n →
  (0 < n)%nat →
  record_values (field_index elems) n ptr_n = Returns (<[0%nat := c]> cs).
Proof.
  intros n Hfit _ Hfids Htaken Hcs Hn.
  pose proof (field_index_in_order elems Hfit Hfids) as Hidx. fold n in Hidx.
  rewrite record_values_closed by apply field_index_length. cbv zeta.
  rewrite Htaken, Hidx.
  rewrite take_ge
    by (rewrite !length_app, length_map, length_seq; cbn [length]; lia).
  rewrite forallb_app, forallb_below by lia. cbn [forallb andb].
  destruct (Z.ltb_spec 0 (Z.of_nat n)) as [_|]; [|lia].
  unfold store_values.
  rewrite zip_with_app by (rewrite length_map, length_seq; lia).
  rewrite foldl_app. cbn [zip_with foldl fst snd Z.to_nat].
  f_equal. f_equal.
  fold (store_values (map Z.of_nat (seq 0 n)) cs (replicate n None)).
  rewrite <- Hcs at 1.
  rewrite store_values_in_order by (rewrite length_replicate; lia).
  rewrite drop_replicate. cbn [take app].
  replace (n - (0 + length cs))%nat with 0%nat by lia.
  by rewrite app_nil_r.
Qed.

(** With every fid of the index table below the number of fields, every
    record gets its values. *)
Lemma record_values_defined (elems : list fieldNode) (ptr_n : recordNode) :
  Forall (λ z, z < Z.of_nat (length elems)) (field_index elems) →
  record_values (field_index elems) (length elems) ptr_n ≠ Undefined.
Proof.
  intros Hidx.
  rewrite record_values_closed by apply field_index_length. cbv zeta.
  apply (Forall_take _ (length (taken_contents (rec_children ptr_n)))) in Hidx.
  revert Hidx.
  generalize (take (length (taken_contents (rec_children ptr_n))) (field_index elems)).
  intros slots Hall.
  replace (forallb _ slots) with true; [discriminate|].
  symmetry. apply forallb_forall. intros z Hz.
  rewrite Forall_forall in Hall. apply Z.ltb_lt, Hall. by apply list_elem_of_In.
Qed.

(** X3. With fids that are numerals an [int] holds, a record cannot be
    given its values exactly when one of the slots its values would go to
    lies beyond the array: the i-th value taken goes to the slot named by
    the fid of the i-th field (value n+1 to slot 0), and the run is
    undefined if and only if one of these is not below the number of
    fields. *)
Theorem record_values_undefined_iff (elems : list fieldNode) (ptr_n : recordNode) :
  fields_fit_int elems = true →
  values_fit_int (rec_children ptr_n) = true →
  record_values (field_index elems) (length elems) ptr_n = Undefined
  ↔ Exists (λ z, Z.of_nat (length elems) ≤ z)
      (take (length (taken_contents (rec_children ptr_n))) (field_index elems)).
Proof.
  intros _ _.
  rewrite record_values_closed by apply field_index_length. cbv zeta.
  generalize (take (length (taken_contents (rec_children ptr_n))) (field_index elems)).
  intros slots.
  destruct (forallb _ slots) eqn:Hall.
  - split; [discriminate|]. intros Hex. exfalso.
    rewrite forallb_forall in Hall. apply Exists_exists in Hex as (z & Hz & Hbad).
    apply list_elem_of_In, Hall in Hz. apply Z.ltb_lt in Hz. lia.
  - split; [intros _|reflexivity].
    apply Exists_exists.
    induction slots as [|z slots IH]; [discriminate|].
    cbn [forallb] in Hall. destruct (Z.ltb_spec z (Z.of_nat (length elems))).
    + destruct (IH Hall) as (z' & Hz' & Hbad). exists z'. split; [by right|done].
    + exists z. split; [by left|done].
Qed.

End RecordValuesProperties.

Section InsertCalls.
Context {L : libpq}.

Lemma fill_value_ar_length (field_idx : list Z) (fieldcnt : nat)
    (vals : list valueNode) :
  ∀ (i : nat) (value_ar out : list (option string)),
    fill_value_ar field_idx fieldcnt vals i value_ar = Returns out →
    length out = length value_ar.
Proof.
  induction vals as [|val_n rest IH]; intros i value_ar out; cbn [fill_value_ar].
  - by intros [= <-].
  - destruct (fieldcnt <? i)%nat; [by intros [= <-]|].
    destruct (negb (is_element (val_type val_n))); [apply IH|].
    destruct (val_fid val_n) as [fid_s|]; [|apply IH].
    destruct (atoi_nullsafe (Some fid_s) <? 0); [apply IH|].
    destruct (_ <? Z.of_nat fieldcnt); [|discriminate].
    intros Hrun. apply IH in Hrun. by rewrite length_insert in Hrun.
Qed.

Lemma record_values_length (field_idx : list Z) (fieldcnt : nat)
    (ptr_n : recordNode) (value_ar : list (option string)) :
  record_values field_idx fieldcnt ptr_n = Returns value_ar →
  length value_ar = fieldcnt.
Proof.
  intros Hrun. apply fill_value_ar_length in Hrun.
  by rewrite length_replicate in Hrun.
Qed.

(** The calls of the loop over the records, however it ends: executions
    only, each with fieldcnt parameters, at most one for each <record>. *)
Lemma insert_records_calls (key : option string) (field_idx : list Z)
    (fieldcnt : nat) (recs : list recordNode) :
  ∀ (res : eurephiaVALUES) (w : world),
    ∃ evs, trace (insert_records key field_idx fieldcnt recs res w).1
             = (trace w ++ evs)%list
           ∧ forallb (is_execution fieldcnt) evs = true
           ∧ (length evs ≤ length (List.filter (λ n, is_element (rec_type n)) recs))%nat.
Proof.
  induction recs as [|ptr_n rest IH]; intros res w; cbn [insert_records List.filter].
  - exists []. by rewrite app_nil_r.
  - destruct (is_element (rec_type ptr_n)); cbn [negb]; [|apply IH].
    destruct (record_values field_idx fieldcnt ptr_n) as [value_ar|] eqn:Hval.
    2:{ exists []. rewrite app_nil_r. cbn. repeat split; lia. }
    apply record_values_length in Hval.
    unfold bind. rewrite PQexecPrepared_run.
    set (ev := EvPQexecPrepared _ _ _).
    set (w1 := mkWorld _ _).
    assert (Hev : is_execution fieldcnt ev = true).
    { cbn. rewrite Hval. by rewrite Nat.eqb_refl. }
    destruct (negb _).
    + exists [ev]. cbn [fst trace w1 forallb length].
      rewrite Hev. repeat split; lia.
    + destruct (IH (add_result key (pq_exec_prepared (dbc w) fieldcnt value_ar).2 res) w1)
        as (evs & Htr & Hall & Hlen).
      exists (ev :: evs). rewrite Htr. cbn [trace w1 forallb length].
      rewrite <- app_assoc, Hev, Hall. repeat split; lia.
Qed.

(** X4. What [pgsql_INSERT] sends, on every document and however the run
    ends: nothing, or one PQprepare followed by executions only, each with
    as many parameters as the document has fields, and at most one for
    each <record>.  If the preparation is refused nothing is executed and
    NULL is returned.  It sends no other statement and takes no lock, and it
    leaves the trace before it as it was. *)
Theorem insert_calls (doc : xmlDoc) (w : world) :
  let run := pgsql_INSERT doc w in
  let n := length (doc_fields doc) in
  ∃ evs, trace run.1 = (trace w ++ evs)%list
    ∧ (evs = []
       ∨ ∃ q r execs,
           evs = EvPQprepare q n r :: execs
           ∧ forallb (is_execution n) execs = true
           ∧ (length execs ≤ length (doc_records doc))%nat
           ∧ (PQresultStatus r ≠ PGRES_COMMAND_OK →
              execs = [] ∧ run.2 = Returns None)).
Proof.
  assert (Hnone : ∀ o : outcome (option eurephiaVALUES),
    ∃ evs, trace (w, o).1 = (trace w ++ evs)%list
      ∧ (evs = []
         ∨ ∃ q r execs,
             evs = EvPQprepare q (length (doc_fields doc)) r :: execs
             ∧ forallb (is_execution (length (doc_fields doc))) execs = true
             ∧ (length execs ≤ length (doc_records doc))%nat
             ∧ (PQresultStatus r ≠ PGRES_COMMAND_OK →
                execs = [] ∧ (w, o).2 = Returns None))).
  { intros o. exists []. rewrite app_nil_r. by split; [|left]. }
  destruct doc as [[[name table key fields_n recs_n]|]]; cbv zeta;
    unfold pgsql_INSERT; cbn [xmlDocGetRootElement root_name root_table root_key
                              root_fields root_records]; [|apply Hnone].
  destruct (negb (String.eqb name "sqldata")); [apply Hnone|].
  destruct table as [table|]; [|apply Hnone].
  destruct fields_n as [fields_n|]; [|apply Hnone].
  destruct recs_n as [recs_n|]; [|apply Hnone].
  destruct (field_names _) as [names|]; [|apply Hnone]. clear Hnone.
  unfold bind. rewrite PQprepare_run.
  set (n := length (element_fields fields_n)).
  set (q := mkInsert table names key).
  set (r := (pq_prepare (dbc w) q n).2).
  set (w0 := mkWorld _ _).
  change (doc_fields _) with (element_fields fields_n). fold n.
  change (doc_records _) with (List.filter (λ n, is_element (rec_type n)) recs_n).
  destruct (ExecStatusType_eqb (PQresultStatus r) PGRES_COMMAND_OK) eqn:Hst;
    cbn [negb].
  - destruct (insert_records_calls key (field_index (element_fields fields_n)) n
                recs_n (eCreate_value_space 1) w0) as (evs & Htr & Hall & Hlen).
    exists (EvPQprepare q n r :: evs). split.
    + rewrite Htr. cbn [trace w0]. by rewrite <- app_assoc.
    + right. exists q, r, evs. repeat split; try done.
      all: apply ExecStatusType_eqb_eq in Hst; done.
  - exists [EvPQprepare q n r]. split; [reflexivity|].
    right. exists q, r, []. repeat split; cbn; lia.
Qed.

Lemma insert_records_defined (key : option string) (field_idx : list Z)
    (fieldcnt : nat) (recs : list recordNode) :
  (∀ ptr_n, record_values field_idx fieldcnt ptr_n ≠ Undefined) →
  ∀ (res : eurephiaVALUES) (w : world),
    (insert_records key field_idx fieldcnt recs res w).2 ≠ Undefined.
Proof.
  intros Hdef. induction recs as [|ptr_n rest IH]; intros res w;
    cbn [insert_records]; [discriminate|].
  destruct (negb (is_element (rec_type ptr_n))); [apply IH|].
  specialize (Hdef ptr_n).
  destruct (record_values field_idx fieldcnt ptr_n) as [value_ar|]; [|done].
  unfold bind. rewrite PQexecPrepared_run.
  destruct (negb _); [discriminate|apply IH].
Qed.

End InsertCalls.

Section InsertEdges.
Context {L : libpq}.

(** A document with no <record>: one PQprepare, and the empty result. *)
Lemma pgsql_INSERT_no_records (w : world) (table : string) (key : option string)
    (fields_n : list fieldNode) (recs_n : list recordNode) (names : list string) :
  Forall (λ n, is_element (rec_type n) = false) recs_n →
  field_names (map fld_content (element_fields fields_n)) = Returns names →
  pgsql_INSERT (sqldata_doc table key fields_n recs_n) w =
    let stmt := mkInsert table names key in
    let fieldcnt := length (element_fields fields_n) in
    let prep := pq_prepare (dbc w) stmt fieldcnt in
    (mkWorld prep.1 (trace w ++ [EvPQprepare stmt fieldcnt prep.2]),
     Returns (if ExecStatusType_eqb (PQresultStatus prep.2) PGRES_COMMAND_OK
              then Some [] else None)).
Proof.
  intros Hrecs Hnames.
  rewrite (pgsql_INSERT_run _ _ _ _ _ _ Hnames); cbv zeta.
  rewrite PQprepare_run; cbn [fst snd].
  destruct (ExecStatusType_eqb _ _); [|reflexivity].
  generalize (mkWorld (pq_prepare (dbc w) (mkInsert table names key)
                         (length (element_fields fields_n))).1
                (trace w ++ [EvPQprepare (mkInsert table names key)
                               (length (element_fields fields_n))
                               (pq_prepare (dbc w) (mkInsert table names key)
                                  (length (element_fields fields_n))).2])).
  induction Hrecs as [|ptr_n rest Hty _ IH]; intros w0; cbn [insert_records];
    [reflexivity|].
  rewrite Hty. apply IH.
Qed.

(** X5. Memory safety of [pgsql_INSERT]: if the fids of the document are
    numerals an [int] holds, every field has a name and every fid of the
    index table is below the number of fields, no run of [pgsql_INSERT] on
    the document is undefined, whatever else its records hold and whatever
    the database answers. *)
Theorem insert_defined (doc : xmlDoc) (w : world) :
  doc_fids_fit_int doc = true →
  field_names (map fld_content (doc_fields doc)) ≠ Undefined →
  Forall (λ z, z < Z.of_nat (length (doc_fields doc))) (field_index (doc_fields doc)) →
  (pgsql_INSERT doc w).2 ≠ Undefined.
Proof.
  intros _.
  destruct doc as [[[name table key fields_n recs_n]|]];
    unfold pgsql_INSERT, doc_fields;
    cbn [xmlDocGetRootElement root_name root_table root_key
         root_fields root_records]; [|discriminate].
  intros Hnames Hidx.
  destruct (negb (String.eqb name "sqldata")); [discriminate|].
  destruct table as [table|]; [|discriminate].
  destruct fields_n as [fields_n|]; [|discriminate].
  destruct recs_n as [recs_n|]; [|discriminate].
  cbn [default] in Hnames, Hidx.
  destruct (field_names _) as [names|]; [|done].
  unfold bind. rewrite PQprepare_run.
  destruct (negb _); [discriminate|].
  apply insert_records_defined. intros ptr_n.
  by apply record_values_defined.
Qed.

(** X6. [pgsql_INSERT] makes no call at all exactly when the document is
    not an sqldata document with a table, <fields> and <records>, or one of
    its fields has no name; a document that is refused this way gives NULL
    and leaves the world as it is.  Every other document is prepared, with
    or without records. *)
Theorem insert_reaches_database (doc : xmlDoc) (w : world) :
  (since w (pgsql_INSERT doc w).1 = []
   ↔ is_sqldata doc = false
     ∨ field_names (map fld_content (doc_fields doc)) = Undefined)
  ∧ (is_sqldata doc = false → pgsql_INSERT doc w = (w, Returns None)).
Proof.
  assert (Hsame : since w w = []) by (unfold since; apply drop_all).
  destruct doc as [[[name table key fields_n recs_n]|]];
    unfold pgsql_INSERT, is_sqldata, doc_fields;
    cbn [xmlDocGetRootElement root_name root_table root_key
         root_fields root_records]; [|by split; [split; [left|]|]].
  destruct (String.eqb name "sqldata"); cbn [negb andb];
    [|by split; [split; [left|]|]].
  destruct table as [table|]; [|by split; [split; [left|]|]].
  destruct fields_n as [fields_n|]; [|by split; [split; [left|]|]].
  destruct recs_n as [recs_n|]; [|by split; [split; [left|]|]].
  cbn [default]. split; [|discriminate].
  destruct (field_names _) as [names|]; [|by split; [right|]].
  unfold bind. rewrite PQprepare_run.
  set (ev := EvPQprepare _ _ _). set (w0 := mkWorld _ _).
  assert (Hgrow : ∀ w' : world, (∃ evs, trace w' = (trace w0 ++ evs)%list) →
                    since w w' ≠ []).
  { intros w' [evs Htr]. cbn [trace w0] in Htr. rewrite <- app_assoc in Htr.
    by rewrite (since_app _ _ _ Htr). }
  split; [|intros [[=]|[=]]].
  intros Hnil. exfalso. revert Hnil.
  destruct (negb _); cbn [fst].
  - apply Hgrow. exists []. by rewrite app_nil_r.
  - apply Hgrow.
    destruct (insert_records_calls key (field_index (element_fields fields_n))
                (length (element_fields fields_n)) recs_n (eCreate_value_space 1) w0)
      as (evs & Htr & _).
    by exists evs.
Qed.

End InsertEdges.

Section QueueMore.
Context {L : libpq}.

(** X7. For a submid below 2^31, [db_update_submissionqueue] sends nothing
    and returns 0 exactly for STAT_NEW and for a number that is no status;
    for every other status it sends one UPDATE of that job, returns 1 if
    the answer is PGRES_COMMAND_OK and -1 if not.  The UPDATE sets the start
    time only for STAT_INPROG and no time for STAT_ASSIGNED; for the other
    statuses it sets the end time. *)
Theorem update_result_and_call (submid : Z) (status : status_arg) (w : world) :
  0 ≤ submid < 2 ^ 31 →
  let run := db_update_submissionqueue submid status w in
  (run = (w, Returns 0)
   ∧ (status = Stat STAT_NEW ∨ ∃ code, status = StatOther code))
  ∨ (∃ s st r,
       status = Stat s ∧ s ≠ STAT_NEW
       ∧ since w run.1 = [EvPQexec (UpdateQueue s st submid) r]
       ∧ run.2 = Returns (if update_ok r then 1 else -1)
       ∧ (st = ParseStart ↔ s = STAT_INPROG)
       ∧ (st = NoStamp ↔ s = STAT_ASSIGNED)).
Proof.
  intros _.
  destruct status as [s|code]; [|left; split; [reflexivity|right; by exists code]].
  destruct (status_stamp s) as [st|] eqn:Hst.
  - right. destruct (pq_exec (dbc w) (UpdateQueue s st submid)) as [c r] eqn:Hq.
    cbv zeta. rewrite (db_update_submissionqueue_run _ _ _ _ _ _ Hst Hq).
    exists s, st, r. cbn [fst snd].
    split; [reflexivity|]. split; [by intros ->|].
    split; [by apply since_app|]. split; [reflexivity|].
    destruct s; cbn in Hst; try discriminate; injection Hst as <-;
      split; split; intros; (reflexivity || discriminate).
  - left. destruct s; try discriminate. split; [reflexivity|by left].
Qed.

Lemma since_mkWorld (w : world) (c : PGconn) (evs : list event) :
  since w (mkWorld c (trace w ++ evs)) = evs.
Proof. by apply since_app. Qed.

Lemma substring_length_le (n : nat) (s : string) :
  (String.length (substring 0 n s) ≤ n)%nat.
Proof.
  revert s. induction n as [|n IH]; intros [|c s]; cbn; try lia.
  specialize (IH s). lia.
Qed.

(** [db_get_submissionqueue_job] by the answers it gets. *)
Lemma db_get_submissionqueue_job_run (w : world) :
  db_get_submissionqueue_job w =
    let sel := pq_exec (dbc w) (SelectNewJob STAT_NEW) in
    let ev := EvPQexec (SelectNewJob STAT_NEW) sel.2 in
    if negb (ExecStatusType_eqb (PQresultStatus sel.2) PGRES_TUPLES_OK)
    then (mkWorld sel.1 (trace w ++ [EvLock; ev; EvUnlock]), Returns None)
    else if (PQntuples sel.2 =? 1)%nat
    then
      let submid := atoi_nullsafe (PQgetvalue sel.2 0 0) in
      match PQgetvalue sel.2 0 1 with
      | None => (mkWorld sel.1 (trace w ++ [EvLock; ev]), Undefined)
      | Some fname =>
          let mark := UpdateQueue STAT_ASSIGNED NoStamp submid in
          let upd := pq_exec sel.1 mark in
          (mkWorld upd.1 (trace w ++ [EvLock; ev; EvPQexec mark upd.2; EvUnlock]),
           Returns (if update_ok upd.2
                    then Some (mkJob jbAVAIL submid (job_filename_of fname))
                    else None))
      end
    else (mkWorld sel.1 (trace w ++ [EvLock; ev; EvUnlock]),
          Returns (Some (mkJob jbNONE 0 ""))).
Proof.
  cbv zeta. destruct (pq_exec (dbc w) (SelectNewJob STAT_NEW)) as [c1 res] eqn:Hsel.
  unfold db_get_submissionqueue_job. unfold bind at 1 2.
  unfold pthread_mutex_lock, PQexec, log. cbn [dbc trace fst snd].
  rewrite Hsel. cbn [fst snd]. rewrite <- app_assoc. cbn [app].
  destruct (negb _).
  { unfold bind, pthread_mutex_unlock, log, ret. cbn [dbc trace].
    by rewrite <- app_assoc. }
  destruct (PQntuples res =? 1)%nat.
  2:{ unfold bind, pthread_mutex_unlock, log, ret. cbn [dbc trace].
      by rewrite <- app_assoc. }
  destruct (PQgetvalue res 0 1) as [fname|]; [|reflexivity].
  unfold bind at 1.
  destruct (pq_exec c1 (UpdateQueue STAT_ASSIGNED NoStamp
                          (atoi_nullsafe (PQgetvalue res 0 0)))) as [c2 upd] eqn:Hupd.
  rewrite (db_update_submissionqueue_run _ STAT_ASSIGNED NoStamp
             (mkWorld c1 _) c2 upd eq_refl Hupd).
  cbn [fst snd trace]. rewrite <- app_assoc. cbn [app].
  destruct (update_ok upd); cbn;
    unfold bind, pthread_mutex_unlock, log, ret; cbn [dbc trace];
    by rewrite <- app_assoc.
Qed.

(** X8. [db_get_submissionqueue_job] takes the mutex first and then asks for
    the new job.  Whenever it returns, it has given the mutex back as its
    last step, once, and the only call that can lie between the SELECT and
    the unlock is the UPDATE that marks the job STAT_ASSIGNED:
    - it returns NULL when the SELECT failed, with no further call, or when
      that UPDATE did not come back with PGRES_COMMAND_OK;
    - it returns a job without work when the SELECT gave another number of
      rows than one, with no further call;
    - it returns an available job after the UPDATE of that very job came
      back with PGRES_COMMAND_OK; the file name has at most 4089
      characters.
    The one run that does not return is the one where the row found has no
    file name: it stops after the SELECT, with the mutex taken. *)
Theorem checkout_result (w : world) :
  let run := db_get_submissionqueue_job w in
  let res := (pq_exec (dbc w) (SelectNewJob STAT_NEW)).2 in
  (run.2 = Undefined
   ∧ PQresultStatus res = PGRES_TUPLES_OK
   ∧ PQntuples res = 1%nat
   ∧ PQgetvalue res 0 1 = None
   ∧ since w run.1 = [EvLock; EvPQexec (SelectNewJob STAT_NEW) res])
  ∨ (∃ out calls,
       run.2 = Returns out
       ∧ since w run.1
         = (EvLock :: EvPQexec (SelectNewJob STAT_NEW) res :: calls ++ [EvUnlock])%list
       ∧ lock_held_at_calls false (since w run.1) = true
       ∧ match out with
         | None =>
             (PQresultStatus res ≠ PGRES_TUPLES_OK ∧ calls = [])
             ∨ (PQresultStatus res = PGRES_TUPLES_OK
                ∧ PQntuples res = 1%nat
                ∧ ∃ submid upd,
                    calls = [EvPQexec (UpdateQueue STAT_ASSIGNED NoStamp submid) upd]
                    ∧ update_ok upd = false)
         | Some job =>
             (job_status job = jbNONE
              ∧ PQresultStatus res = PGRES_TUPLES_OK
              ∧ PQntuples res ≠ 1%nat
              ∧ calls = [])
             ∨ (job_status job = jbAVAIL
                ∧ PQresultStatus res = PGRES_TUPLES_OK
                ∧ PQntuples res = 1%nat
                ∧ (String.length (job_filename job) ≤ 4089)%nat
                ∧ ∃ upd,
                    calls = [EvPQexec (UpdateQueue STAT_ASSIGNED NoStamp
                                         (job_submid job)) upd]
                    ∧ update_ok upd = true)
         end).
Proof.
  intros run res. subst run res.
  rewrite db_get_submissionqueue_job_run. cbv zeta.
  destruct (pq_exec (dbc w) (SelectNewJob STAT_NEW)) as [c1 res]. cbn [fst snd].
  destruct (ExecStatusType_eqb (PQresultStatus res) PGRES_TUPLES_OK) eqn:Hst;
    cbn [negb].
  2:{ right. exists None, []. cbn [fst snd]. rewrite since_mkWorld.
      apply ExecStatusType_eqb_neq in Hst. repeat split; try done. by left. }
  apply ExecStatusType_eqb_eq in Hst.
  destruct (PQntuples res =? 1)%nat eqn:Hn.
  2:{ right. exists (Some (mkJob jbNONE 0 "")), []. cbn [fst snd].
      rewrite since_mkWorld. apply Nat.eqb_neq in Hn.
      repeat split; try done. by left. }
  apply Nat.eqb_eq in Hn.
  destruct (PQgetvalue res 0 1) as [fname|].
  2:{ left. cbn [fst snd]. by rewrite since_mkWorld. }
  destruct (pq_exec c1 _) as [c2 upd]. cbn [fst snd].
  right.
  exists (if update_ok upd
          then Some (mkJob jbAVAIL (atoi_nullsafe (PQgetvalue res 0 0))
                       (job_filename_of fname))
          else None),
         [EvPQexec (UpdateQueue STAT_ASSIGNED NoStamp
                      (atoi_nullsafe (PQgetvalue res 0 0))) upd].
  rewrite since_mkWorld. split; [reflexivity|]. split; [reflexivity|].
  split; [reflexivity|].
  destruct (update_ok upd) eqn:Hok.
  - right. cbn [job_status job_filename job_submid].
    repeat split; try done; [apply substring_length_le|by exists upd].
  - right. repeat split; try done. by exists (atoi_nullsafe (PQgetvalue res 0 0)), upd.
Qed.

End QueueMore.

Section RegistrationMore.
Context {L : libpq} {X : xmlparser}.

(** X9. [db_register_system] registers nothing when the lookup of the
    sysid fails or finds more than one system: it returns -1 after that one
    SELECT, without an insert and without a repair of the duplicates. *)
Theorem register_system_lookup_rejected (w : world) (xslt : xsltStylesheet)
    (summaryxml : summaryXML) (sysinfo_d : xmlDoc) (sysid : string)
    (c1 : PGconn) (r1 : option PGresult) :
  parseToSQLdata xslt summaryxml (mkParams "systems" 0 None 0) = Some sysinfo_d →
  sqldataGetValue sysinfo_d "sysid" 0 = Some sysid →
  let find_system := SelectSystem (substring 0 256 sysid) in
  pq_exec (dbc w) find_system = (c1, r1) →
  PQresultStatus r1 ≠ PGRES_TUPLES_OK ∨ (1 < PQntuples r1)%nat →
  db_register_system xslt summaryxml w =
    (mkWorld c1 (trace w ++ [EvPQexec find_system r1]), Returns (-1)).
Proof.
  intros Hparse Hsysid find_system Hq1 Hrej.
  unfold db_register_system. rewrite Hparse, Hsysid.
  unfold bind at 1. fold find_system. rewrite (PQexec_run _ _ _ _ Hq1).
  destruct Hrej as [Hst|Hn].
  - apply ExecStatusType_eqb_neq in Hst. by rewrite Hst.
  - destruct (negb _); [reflexivity|].
    destruct (PQntuples r1) as [|[|n]]; [lia|lia|reflexivity].
Qed.

(** X10. A system that is not known yet: the systems document is inserted,
    and if that returns one entry with a value, the host document made for
    the number read from that value is inserted next, without a lookup of
    the host.  The function returns that number, which it does not check
    to be positive, or -1 if the host insert failed. *)
Theorem register_new_system (w : world) (xslt : xsltStylesheet)
    (summaryxml : summaryXML) (sysinfo_d : xmlDoc) (sysid : string)
    (c1 : PGconn) (r1 : option PGresult) (w2 : world)
    (name val : string) (hostinfo_d : xmlDoc) (hostname ipaddr : string) :
  parseToSQLdata xslt summaryxml (mkParams "systems" 0 None 0) = Some sysinfo_d →
  sqldataGetValue sysinfo_d "sysid" 0 = Some sysid →
  let find_system := SelectSystem (substring 0 256 sysid) in
  pq_exec (dbc w) find_system = (c1, r1) →
  PQresultStatus r1 = PGRES_TUPLES_OK →
  PQntuples r1 = 0%nat →
  pgsql_INSERT sysinfo_d (mkWorld c1 (trace w ++ [EvPQexec find_system r1]))
    = (w2, Returns (Some [(name, Some val)])) →
  sqldataGetHostInfo xslt summaryxml (atoi val) = Some (hostinfo_d, hostname, ipaddr) →
  db_register_system xslt summaryxml w =
    match pgsql_INSERT hostinfo_d w2 with
    | (w3, Returns (Some _)) => (w3, Returns (atoi val))
    | (w3, Returns None) => (w3, Returns (-1))
    | (w3, Undefined) => (w3, Undefined)
    end.
Proof.
  intros Hparse Hsysid find_system Hq1 Hst1 Hn1 Hsys Hhost.
  unfold db_register_system. rewrite Hparse, Hsysid.
  unfold bind at 1. fold find_system. rewrite (PQexec_run _ _ _ _ Hq1).
  apply ExecStatusType_eqb_eq in Hst1. rewrite Hst1, Hn1. cbn [negb Nat.eqb].
  unfold bind at 1. rewrite Hsys.
  cbn [eCount length Nat.eqb negb eurephia_val orb atoi_nullsafe].
  rewrite bool_decide_eq_true_2 by eauto. cbn [negb].
  rewrite Hhost. unfold bind.
  destruct (pgsql_INSERT hostinfo_d w2) as [w3 [[dbdata|]|]]; reflexivity.
Qed.

(** X11. [db_register_cyclictest] returns 1 or -1.  It returns 1 exactly
    when both inserts were made and each returned at least one entry: the
    cyclic_statistics document first, then the cyclic_rawdata document,
    from where the first insert left the database to where the call ends. *)
Theorem register_cyclictest_result (xslt : xsltStylesheet) (summaryxml : summaryXML)
    (rterid : Z) (w w' : world) (r : Z) :
  db_register_cyclictest xslt summaryxml rterid w = (w', Returns r) →
  (r = 1 ∨ r = -1)
  ∧ (r = 1 ↔
     ∃ stats_d w1 dbdata1 raw_d dbdata2,
       parseToSQLdata xslt summaryxml (mkParams "cyclic_statistics" 0 None rterid)
         = Some stats_d
       ∧ pgsql_INSERT stats_d w = (w1, Returns (Some dbdata1))
       ∧ (1 ≤ eCount dbdata1)%nat
       ∧ parseToSQLdata xslt summaryxml (mkParams "cyclic_rawdata" 0 None rterid)
           = Some raw_d
       ∧ pgsql_INSERT raw_d w1 = (w', Returns (Some dbdata2))
       ∧ (1 ≤ eCount dbdata2)%nat).
Proof.
  unfold db_register_cyclictest.
  destruct (parseToSQLdata xslt summaryxml (mkParams "cyclic_statistics" _ _ _))
    as [d1|] eqn:Hp1.
  2:{ intros [= <- <-]. split; [by right|]. split; [lia|].
      intros (? & ? & ? & ? & ? & [=] & _). }
  unfold bind at 1.
  destruct (pgsql_INSERT d1 w) as [w1 [[v1|]|]] eqn:Hi1; [| |discriminate].
  2:{ intros [= <- <-]. split; [by right|]. split; [lia|].
      intros (d & w1' & v & ? & ? & [= <-] & Hi & _).
      rewrite Hi1 in Hi. discriminate. }
  destruct (eCount v1 <? 1)%nat eqn:Hc1.
  { intros [= <- <-]. split; [by right|]. split; [lia|].
    intros (d & w1' & v & ? & ? & [= <-] & Hi & Hc & _).
    rewrite Hi1 in Hi. injection Hi as <- <-.
    apply Nat.ltb_lt in Hc1. lia. }
  apply Nat.ltb_ge in Hc1.
  destruct (parseToSQLdata xslt summaryxml (mkParams "cyclic_rawdata" _ _ _))
    as [d2|] eqn:Hp2.
  2:{ intros [= <- <-]. split; [by right|]. split; [lia|].
      intros (d & w1' & v & ? & ? & _ & _ & _ & [=] & _). }
  unfold bind.
  destruct (pgsql_INSERT d2 w1) as [w2 [[v2|]|]] eqn:Hi2; [| |discriminate].
  2:{ intros [= <- <-]. split; [by right|]. split; [lia|].
      intros (d & w1' & v & d' & v' & [= <-] & Hi & _ & [= <-] & Hi' & _).
      rewrite Hi1 in Hi. injection Hi as <- <-.
      rewrite Hi2 in Hi'. discriminate. }
  destruct (eCount v2 <? 1)%nat eqn:Hc2.
  { intros [= <- <-]. split; [by right|]. split; [lia|].
    intros (d & w1' & v & d' & v' & [= <-] & Hi & _ & [= <-] & Hi' & Hc).
    rewrite Hi1 in Hi. injection Hi as <- <-.
    rewrite Hi2 in Hi'. injection Hi' as <-.
    apply Nat.ltb_lt in Hc2. lia. }
  apply Nat.ltb_ge in Hc2.
  intros [= <- <-]. split; [by left|]. split; [|done].
  intros _. by exists d1, w1, v1, d2, v2.
Qed.

(** X12. A cyclic_statistics document without a <record>: the insert
    itself succeeds with an empty result, and [db_register_cyclictest]
    takes that for a failure.  It returns -1 after the one PQprepare, and
    the raw data are not inserted. *)
Theorem register_cyclictest_without_statistics (xslt : xsltStylesheet)
    (summaryxml : summaryXML) (rterid : Z) (w : world)
    (table : string) (key : option string) (fields_n : list fieldNode)
    (recs_n : list recordNode) (names : list string) :
  parseToSQLdata xslt summaryxml (mkParams "cyclic_statistics" 0 None rterid)
    = Some (sqldata_doc table key fields_n recs_n) →
  Forall (λ n, is_element (rec_type n) = false) recs_n →
  field_names (map fld_content (element_fields fields_n)) = Returns names →
  let stmt := mkInsert table names key in
  let fieldcnt := length (element_fields fields_n) in
  let prep := pq_prepare (dbc w) stmt fieldcnt in
  db_register_cyclictest xslt summaryxml rterid w =
    (mkWorld prep.1 (trace w ++ [EvPQprepare stmt fieldcnt prep.2]), Returns (-1)).
Proof.
  intros Hparse Hrecs Hnames stmt fieldcnt prep.
  unfold db_register_cyclictest. rewrite Hparse. unfold bind.
  rewrite (pgsql_INSERT_no_records _ _ _ _ _ _ Hrecs Hnames).
  cbv zeta. fold stmt fieldcnt prep.
  by destruct (ExecStatusType_eqb (PQresultStatus prep.2) PGRES_COMMAND_OK).
Qed.

End RegistrationMore.

Section RegistrationCalls.
Context {L : libpq} {X : xmlparser}.

(** The calls of [pgsql_INSERT] are those of an insert, with one
    preparation at most. *)
Lemma pgsql_INSERT_events (doc : xmlDoc) (w : world) :
  ∃ evs, trace (pgsql_INSERT doc w).1 = (trace w ++ evs)%list
         ∧ forallb is_insert_event evs = true
         ∧ (length (List.filter is_prepare evs) ≤ 1)%nat.
Proof.
  assert (Hnone : ∀ o : outcome (option eurephiaVALUES),
    ∃ evs, trace (w, o).1 = (trace w ++ evs)%list
           ∧ forallb is_insert_event evs = true
           ∧ (length (List.filter is_prepare evs) ≤ 1)%nat).
  { intros o. exists []. rewrite app_nil_r. cbn. repeat split; lia. }
  destruct doc as [[[name table key fields_n recs_n]|]];
    unfold pgsql_INSERT; cbn [xmlDocGetRootElement root_name root_table root_key
                              root_fields root_records]; [|apply Hnone].
  destruct (negb (String.eqb name "sqldata")); [apply Hnone|].
  destruct table as [table|]; [|apply Hnone].
  destruct fields_n as [fields_n|]; [|apply Hnone].
  destruct recs_n as [recs_n|]; [|apply Hnone].
  destruct (field_names _) as [names|]; [|apply Hnone]. clear Hnone.
  unfold bind. rewrite PQprepare_run.
  set (ev := EvPQprepare _ _ _). set (w0 := mkWorld _ _).
  assert (Hexecs : ∀ n evs, forallb (is_execution n) evs = true →
            forallb is_insert_event evs = true ∧ List.filter is_prepare evs = []).
  { intros n evs. induction evs as [|e evs IH]; [done|].
    cbn [forallb List.filter]. intros [He Hevs]%andb_prop.
    destruct (IH Hevs) as [-> ->]. by destruct e. }
  destruct (negb _).
  - exists [ev]. cbn [fst trace w0]. cbn. repeat split; lia.
  - destruct (insert_records_calls key (field_index (element_fields fields_n))
                (length (element_fields fields_n)) recs_n (eCreate_value_space 1) w0)
      as (evs & Htr & Hall & _).
    destruct (Hexecs _ _ Hall) as [Hins Hprep].
    exists (ev :: evs). rewrite Htr. cbn [trace w0 forallb List.filter is_prepare ev].
    rewrite <- app_assoc, Hins, Hprep. cbn. repeat split; lia.
Qed.

Lemma insert_events_app (evs1 evs2 : list event) (n1 n2 : nat) :
  forallb is_insert_event evs1 = true ∧ (length (List.filter is_prepare evs1) ≤ n1)%nat →
  forallb is_insert_event evs2 = true ∧ (length (List.filter is_prepare evs2) ≤ n2)%nat →
  forallb is_insert_event (evs1 ++ evs2) = true
  ∧ (length (List.filter is_prepare (evs1 ++ evs2)) ≤ n1 + n2)%nat.
Proof.
  intros [H1 Hn1] [H2 Hn2].
  rewrite forallb_app, H1, H2, List.filter_app, length_app. split; [done|lia].
Qed.

(** X13. [db_register_rtevalrun] and [db_register_cyclictest] send the
    calls of their two inserts and nothing else: at most two PQprepare, and
    apart from them executions of the prepared statement only.  No other
    statement goes to the database and the mutex is not touched, so what
    the first insert stored stays when the second one fails. *)
Theorem register_run_calls (xslt : xsltStylesheet) (summaryxml : summaryXML)
    (syskey rterid : Z) (report_fname : option string) (w : world) :
  (∃ evs, trace (db_register_rtevalrun xslt summaryxml syskey report_fname w).1
            = (trace w ++ evs)%list
          ∧ forallb is_insert_event evs = true
          ∧ (length (List.filter is_prepare evs) ≤ 2)%nat)
  ∧ (∃ evs, trace (db_register_cyclictest xslt summaryxml rterid w).1
              = (trace w ++ evs)%list
            ∧ forallb is_insert_event evs = true
            ∧ (length (List.filter is_prepare evs) ≤ 2)%nat).
Proof.
  assert (Hone : ∀ (doc : xmlDoc) (k : option eurephiaVALUES → M Z),
    (∀ a w1, ∃ evs, trace (k a w1).1 = (trace w1 ++ evs)%list
                    ∧ forallb is_insert_event evs = true
                    ∧ (length (List.filter is_prepare evs) ≤ 1)%nat) →
    ∃ evs, trace (bind (pgsql_INSERT doc) k w).1 = (trace w ++ evs)%list
           ∧ forallb is_insert_event evs = true
           ∧ (length (List.filter is_prepare evs) ≤ 2)%nat).
  { intros doc k Hk. unfold bind.
    destruct (pgsql_INSERT_events doc w) as (evs1 & Htr1 & H1).
    destruct (pgsql_INSERT doc w) as [w1 [a|]]; cbn [fst] in Htr1.
    - destruct (Hk a w1) as (evs2 & Htr2 & H2).
      exists (evs1 ++ evs2)%list. rewrite Htr2, Htr1, <- app_assoc.
      split; [done|]. by apply (insert_events_app _ _ 1 1).
    - exists evs1. cbn [fst]. destruct H1. repeat split; try done. lia. }
  assert (Hret : ∀ (z : Z) (w1 : world),
    ∃ evs, trace (ret z w1).1 = (trace w1 ++ evs)%list
           ∧ forallb is_insert_event evs = true
           ∧ (length (List.filter is_prepare evs) ≤ 1)%nat).
  { intros z w1. exists []. rewrite app_nil_r. cbn. repeat split; lia. }
  assert (Hret2 : ∀ z : Z,
    ∃ evs, trace (ret z w).1 = (trace w ++ evs)%list
           ∧ forallb is_insert_event evs = true
           ∧ (length (List.filter is_prepare evs) ≤ 2)%nat).
  { intros z. exists []. rewrite app_nil_r. cbn. repeat split; lia. }
  assert (Hlast : ∀ (doc : xmlDoc) (k : option eurephiaVALUES → M Z) (w1 : world),
    (∀ a w2, k a w2 = (w2, (k a w2).2)) →
    ∃ evs, trace (bind (pgsql_INSERT doc) k w1).1 = (trace w1 ++ evs)%list
           ∧ forallb is_insert_event evs = true
           ∧ (length (List.filter is_prepare evs) ≤ 1)%nat).
  { intros doc k w1 Hk. unfold bind.
    destruct (pgsql_INSERT_events doc w1) as (evs1 & Htr1 & H1).
    destruct (pgsql_INSERT doc w1) as [w2 [a|]]; cbn [fst] in Htr1.
    - rewrite Hk. by exists evs1.
    - by exists evs1. }
  split.
  - unfold db_register_rtevalrun.
    destruct (parseToSQLdata _ _ _) as [d1|]; [|apply Hret2].
    apply Hone. intros [v1|] w1; [|apply Hret].
    destruct (negb _); [apply Hret|].
    destruct (_ <? 1); [apply Hret|].
    destruct (parseToSQLdata _ _ _) as [d2|]; [|apply Hret].
    apply Hlast. intros [v2|] w2; [|reflexivity].
    by destruct (negb _).
  - unfold db_register_cyclictest.
    destruct (parseToSQLdata _ _ _) as [d1|]; [|apply Hret2].
    apply Hone. intros [v1|] w1; [|apply Hret].
    destruct (_ <? 1)%nat; [apply Hret|].
    destruct (parseToSQLdata _ _ _) as [d2|]; [|apply Hret].
    apply Hlast. intros [v2|] w2; [|reflexivity].
    by destruct (_ <? 1)%nat.
Qed.

End RegistrationCalls.

Section QueueOnTheReferenceStore.
Import Ref.







End QueueOnTheReferenceStore.

(** ** These statements on the reference store *)

Section MoreOnTheReferenceStore.
Import Ref.

(** X1 at work: a host record without ipaddr leaves the third parameter
    NULL. *)
Lemma values_in_field_order_witness :
  record_values (field_index host_fields) 3 incomplete_host
  = Returns [Some "2"; Some "node2"; None].
Proof.
  apply (values_in_field_order host_fields incomplete_host eq_refl eq_refl eq_refl).
  vm_compute. lia.
Defined.

(** X2 at work: the fourth of five values takes the place of the first. *)
Lemma value_beyond_fields_replaces_first_witness :
  record_values (field_index host_fields) 3 crowded_record
  = Returns [Some "more"; Some "node1"; Some "10.0.0.1"].
Proof.
  apply (value_beyond_fields_replaces_first host_fields crowded_record
           [Some "1"; Some "node1"; Some "10.0.0.1"] (Some "more") [Some "and more"]
           eq_refl eq_refl eq_refl eq_refl eq_refl).
  vm_compute. lia.
Defined.

(** X3 at work: with fids that count from 1, the third value of a record
    would go to slot 3 of an array of three; with fids from 0, no slot of
    the record lies beyond the array. *)
Lemma record_values_undefined_iff_witness :
  record_values (field_index [field 1 "syskey"; field 2 "hostname"; field 3 "ipaddr"])
    3 (record [value 1 "1"; value 2 "node1"; value 3 "10.0.0.1"]) = Undefined
  ∧ ¬ Exists (λ z, 3 ≤ z)
        (take (length (taken_contents (rec_children swapped_record)))
           (field_index host_fields)).
Proof.
  split.
  - apply (record_values_undefined_iff
             [field 1 "syskey"; field 2 "hostname"; field 3 "ipaddr"]
             (record [value 1 "1"; value 2 "node1"; value 3 "10.0.0.1"])
             eq_refl eq_refl).
    vm_compute. apply Exists_cons_tl, Exists_cons_tl, Exists_cons_hd. discriminate.
  - intros Hex.
    apply (record_values_undefined_iff host_fields swapped_record eq_refl eq_refl)
      in Hex.
    discriminate Hex.
Defined.

(** X5 at work: the fids of the host documents are 0, 1 and 2. *)
Lemma insert_defined_witness :
  (pgsql_INSERT three_hosts_doc (start empty)).2 = Returns None
  ∧ (pgsql_INSERT three_hosts_doc (start empty)).2 ≠ Undefined.
Proof.
  split; [reflexivity|].
  apply (insert_defined three_hosts_doc (start empty) eq_refl).
  - discriminate.
  - repeat constructor; cbn; lia.
Defined.

(** X7 at work: job 3 is marked as being parsed, and the start time is
    set. *)
Lemma update_result_and_call_witness :
  let run := db_update_submissionqueue 3 (Stat STAT_INPROG) (start some_queue) in
  run.2 = Returns 1
  ∧ since (start some_queue) run.1
    = [EvPQexec (UpdateQueue STAT_INPROG ParseStart 3) command_ok].
Proof.
  intros run.
  destruct (update_result_and_call (L := pq) 3 (Stat STAT_INPROG) (start some_queue))
    as [(Hrun & _)|(s & st & r & _ & _ & _ & _)]; [lia|discriminate Hrun|].
  split; reflexivity.
Defined.

(** X8 at work: job 3 is handed out between the lock and the unlock. *)
Lemma checkout_result_witness :
  let run := db_get_submissionqueue_job (start some_queue) in
  run.2 = Returns (Some (mkJob jbAVAIL 3 "three.xml"))
  ∧ lock_held_at_calls false (since (start some_queue) run.1) = true
  ∧ ∃ calls,
      since (start some_queue) run.1
      = (EvLock :: EvPQexec (SelectNewJob STAT_NEW) (tuples_ok [["3"; "three.xml"]])
           :: calls ++ [EvUnlock])%list.
Proof.
  intros run. split; [reflexivity|].
  destruct (checkout_result (L := pq) (start some_queue))
    as [(Hrun & _)|(out & calls & _ & Htrace & Hlock & _)]; [discriminate Hrun|].
  split; [exact Hlock|]. exists calls. exact Htrace.
Defined.

(** X9 at work: abc is in systems twice. *)
Lemma register_system_lookup_rejected_witness :
  (db_register_system tt report_abc (start duplicate_systems)).2 = Returns (-1)
  ∧ rows (dbc (db_register_system tt report_abc (start duplicate_systems)).1)
    = rows duplicate_systems.
Proof.
  rewrite (register_system_lookup_rejected (L := pq) (X := parser)
             (start duplicate_systems) tt report_abc _ "abc" _ _
             eq_refl eq_refl eq_refl (or_intror (le_n 2))).
  split; reflexivity.
Defined.

(** X10 at work: the first registration in an empty database. *)
Lemma register_new_system_witness :
  (db_register_system tt report_abc (start empty)).2 = Returns 1
  ∧ rows (dbc (db_register_system tt report_abc (start empty)).1)
    = [("systems", [("syskey", Some "1"); ("sysid", Some "abc")]);
       ("systems_hostname",
        [("syskey", Some "1"); ("hostname", Some "node1"); ("ipaddr", Some "10.0.0.1")])].
Proof.
  rewrite (register_new_system (L := pq) (X := parser) (start empty) tt report_abc
             _ "abc" _ _ _ "syskey" "1" _ _ _
             eq_refl eq_refl eq_refl eq_refl eq_refl eq_refl eq_refl).
  split; reflexivity.
Defined.

(** X11 at work: one line of statistics and two of raw data for run 3. *)
Lemma register_cyclictest_result_witness :
  (db_register_cyclictest (X := cyclic_parser) tt (["min 2"], ["5"; "7"]) 3
     (start cyclic_store)).2 = Returns 1
  ∧ (1 = 1 ∨ 1 = -1).
Proof.
  split; [reflexivity|].
  exact (proj1 (register_cyclictest_result (L := pq) (X := cyclic_parser) tt
                  (["min 2"], ["5"; "7"]) 3 (start cyclic_store) _ 1 eq_refl)).
Defined.

(** X12 at work: raw data but no statistics. *)
Lemma register_cyclictest_without_statistics_witness :
  (db_register_cyclictest (X := cyclic_parser) tt ([], ["5"; "7"]) 3
     (start cyclic_store)).2 = Returns (-1)
  ∧ rows (dbc (db_register_cyclictest (X := cyclic_parser) tt ([], ["5"; "7"]) 3
                 (start cyclic_store)).1) = [].
Proof.
  rewrite (register_cyclictest_without_statistics (L := pq) (X := cyclic_parser)
             tt ([], ["5"; "7"]) 3 (start cyclic_store)
             "cyclic_statistics" None [field 0 "rterid"; field 1 "statistics"] []
             ["rterid"; "statistics"] eq_refl (List.Forall_nil _) eq_refl).
  split; reflexivity.
Defined.


(** A fid of 2^31 is no numeral an [int] holds: the statements about fids
    do not speak of this document. *)
Example wide_fid_does_not_fit : doc_fids_fit_int wide_fid_doc = false.
Proof. reflexivity. Qed.

(** The fids count from 1: the third value would go past the end of
    [value_ar]. *)
Example fids_from_one_undefined :
  (pgsql_INSERT fids_from_one_doc (start empty)).2 = Undefined
  ∧ exec_params (trace (pgsql_INSERT fids_from_one_doc (start empty)).1) = [].
Proof. split; reflexivity. Qed.

End MoreOnTheReferenceStore.
